(** * Bujji AI Vision Assistant: session and conversational-context core

    A shallow embedding of [backend/server.py]: the [ConnectionManager]
    (realtime registry and per-client sessions), the two request handlers
    that read and write the sessions ([analyze_scene], [ask_question]), and
    the realtime endpoint.  Handlers are functions in a state-and-exception
    monad over the process-wide state; every [await] on an external
    collaborator splits a handler into the part that runs before the call
    and the part that runs when the call returns, so that other handlers
    can be scheduled in between, as the event loop does. *)

From Stdlib Require Import ZArith QArith_base Ascii String List.
From stdpp Require Import gmap strings list pretty.

Local Open Scope string_scope.
Local Open Scope Z_scope.

(** ** Python values *)

(** A Python [str] is modelled by a Rocq [string] whose characters are the
    code points below 256; [bytes] by a list of bytes. *)

Definition ord (c : ascii) : Z := Z.of_N (N_of_ascii c).
Definition chr (z : Z) : ascii := ascii_of_N (Z.to_N z).

Definition bytes := list Byte.byte.

Definition byte_val (b : Byte.byte) : Z := Z.of_N (Byte.to_N b).
Definition byte_of (z : Z) : Byte.byte :=
  default Byte.x00 (Byte.of_N (Z.to_N (Z.land z 255))).

(** [str.isspace] on one character (code points below 256). *)
Definition isspace (c : ascii) : bool :=
  let n := ord c in
  ((9 <=? n) && (n <=? 13)) || ((28 <=? n) && (n <=? 32))
  || (n =? 133) || (n =? 160).

Fixpoint lstrip (s : string) : string :=
  match s with
  | String c s' => if isspace c then lstrip s' else s
  | EmptyString => EmptyString
  end.

(** The characters of [s] up to its last non-space one. *)
Fixpoint rstrip (s : string) : string :=
  match s with
  | EmptyString => EmptyString
  | String c s' =>
      match rstrip s' with
      | EmptyString => if isspace c then EmptyString else String c EmptyString
      | r => String c r
      end
  end.

(** [str.strip()] *)
Definition strip (s : string) : string := rstrip (lstrip s).

(** [sep in s] for a one-character separator. *)
Fixpoint contains (sep : ascii) (s : string) : bool :=
  match s with
  | EmptyString => false
  | String c s' => if Ascii.eqb c sep then true else contains sep s'
  end.

(** [s.split(sep)] for a one-character separator. *)
Fixpoint split (sep : ascii) (s : string) : list string :=
  match s with
  | EmptyString => [EmptyString]
  | String c s' =>
      if Ascii.eqb c sep then EmptyString :: split sep s'
      else match split sep s' with
           | w :: ws => String c w :: ws
           | [] => [String c EmptyString]
           end
  end.

(** ** Exceptions

    [exn] holds the exceptions that derive from [Exception], the ones an
    [except Exception] clause catches.  [asyncio.CancelledError], which
    derives from [BaseException] only, is not among them: the
    cancellation of a handler at an [await] is modelled apart, by
    [outcome] below. *)

Inductive exn : Type :=
  | HTTPException (status_code : Z) (detail : string)
  | WebSocketDisconnect
  | Exception (message : string).

(** [f"{e}"] *)
Definition exn_str (e : exn) : string :=
  match e with
  | HTTPException c d => pretty c ++ ": " ++ d
  | WebSocketDisconnect => ""
  | Exception m => m
  end.

Inductive result (A : Type) : Type :=
  | Ok (a : A)
  | Raise (e : exn).
Arguments Ok {A} a.
Arguments Raise {A} e.

(** ** The [base64] module

    [base64.b64decode(s)] with its default [validate=False], following
    CPython's [binascii.a2b_base64]: characters outside the alphabet are
    skipped, a complete pad sequence ends the input, and leftover data
    characters are an error. *)

Definition table_a2b_base64 (c : ascii) : option Z :=
  let n := ord c in
  if (65 <=? n) && (n <=? 90) then Some (n - 65)
  else if (97 <=? n) && (n <=? 122) then Some (n - 97 + 26)
  else if (48 <=? n) && (n <=? 57) then Some (n - 48 + 52)
  else if n =? 43 then Some 62
  else if n =? 47 then Some 63
  else None.

Definition BASE64_PAD : ascii := "="%char.

Fixpoint a2b_base64_loop (s : string) (quad_pos leftchar pads : Z)
    (out : bytes) : result bytes :=
  match s with
  | EmptyString =>
      if quad_pos =? 0 then Ok out
      else if quad_pos =? 1 then
        Raise (Exception
          ("Invalid base64-encoded string: number of data characters ("
           ++ pretty (4 * (Z.of_nat (List.length out) / 3) + 1)
           ++ ") cannot be 1 more than a multiple of 4"))
      else Raise (Exception "Incorrect padding")
  | String c s' =>
      if Ascii.eqb c BASE64_PAD then
        if 2 <=? quad_pos then
          if 4 <=? quad_pos + (pads + 1) then Ok out
          else a2b_base64_loop s' quad_pos leftchar (pads + 1) out
        else a2b_base64_loop s' quad_pos leftchar pads out
      else
        match table_a2b_base64 c with
        | None => a2b_base64_loop s' quad_pos leftchar pads out
        | Some this_ch =>
            if quad_pos =? 0 then
              a2b_base64_loop s' 1 this_ch 0 out
            else if quad_pos =? 1 then
              a2b_base64_loop s' 2 (Z.land this_ch 15) 0
                (out ++ [byte_of (Z.lor (Z.shiftl leftchar 2) (Z.shiftr this_ch 4))])%list
            else if quad_pos =? 2 then
              a2b_base64_loop s' 3 (Z.land this_ch 3) 0
                (out ++ [byte_of (Z.lor (Z.shiftl leftchar 4) (Z.shiftr this_ch 2))])%list
            else
              a2b_base64_loop s' 0 0 0
                (out ++ [byte_of (Z.lor (Z.shiftl leftchar 6) this_ch)])%list
        end
  end.

Fixpoint is_ascii (s : string) : bool :=
  match s with
  | EmptyString => true
  | String c s' => (ord c <? 128) && is_ascii s'
  end.

Definition b64decode (s : string) : result bytes :=
  if is_ascii s then a2b_base64_loop s 0 0 0 []
  else Raise (Exception "string argument should contain only ASCII characters").

Definition table_b2a_base64 (n : Z) : ascii :=
  if n <? 26 then chr (n + 65)
  else if n <? 52 then chr (n - 26 + 97)
  else if n <? 62 then chr (n - 52 + 48)
  else if n =? 62 then "+"%char
  else "/"%char.

(** [base64.b64encode(data).decode()] *)
Fixpoint b64encode (data : bytes) : string :=
  match data with
  | [] => ""
  | [a] =>
      let a := byte_val a in
      String (table_b2a_base64 (Z.shiftr a 2))
        (String (table_b2a_base64 (Z.shiftl (Z.land a 3) 4)) "==")
  | [a; b] =>
      let a := byte_val a in
      let b := byte_val b in
      String (table_b2a_base64 (Z.shiftr a 2))
        (String (table_b2a_base64 (Z.lor (Z.shiftl (Z.land a 3) 4) (Z.shiftr b 4)))
          (String (table_b2a_base64 (Z.shiftl (Z.land b 15) 2)) "="))
  | a :: b :: c :: rest =>
      let a := byte_val a in
      let b := byte_val b in
      let c := byte_val c in
      String (table_b2a_base64 (Z.shiftr a 2))
        (String (table_b2a_base64 (Z.lor (Z.shiftl (Z.land a 3) 4) (Z.shiftr b 4)))
          (String (table_b2a_base64 (Z.lor (Z.shiftl (Z.land b 15) 2) (Z.shiftr c 6)))
            (String (table_b2a_base64 (Z.land c 63)) (b64encode rest))))
  end.

(** ** Data model *)

(** A [datetime] as returned by [datetime.utcnow()]; where the source
    formats one with [isoformat()] or [timestamp()] the model keeps the
    instant itself (a session id is its text with the optional instant
    that is appended to it). *)
Definition datetime := Z.

(** One element of a session's ["conversation_history"]. *)
Module HistoryEntry.
Record t := mk {
  question : string;
  answer : string;
  scene_context : string;
  timestamp : datetime
}.
End HistoryEntry.

(** A value of [client_sessions]. *)
Record ClientSession := {
  last_scene_description : string;
  conversation_history : list HistoryEntry.t
}.

Module SceneAnalysisRequest.
Record t := mk { image_data : string; client_id : string }.
End SceneAnalysisRequest.

Module SceneAnalysisResponse.
Record t := mk { description : string; timestamp : datetime; confidence : Q }.
End SceneAnalysisResponse.

Module QuestionRequest.
Record t := mk { question : string; client_id : string }.
End QuestionRequest.

Module QuestionResponse.
Record t := mk { answer : string; scene_context : string; timestamp : datetime }.
End QuestionResponse.

(** *** The collaborator (emergentintegrations) *)

Record ImageContent := { image_base64 : string }.

Record UserMessage := { text : string; file_contents : list ImageContent }.

Record LlmChat := {
  session_id : string * option datetime;
  system_message : string;
  model : string * string
}.

(** *** Realtime channels

    A [WebSocket] object is referred to by its identity.  The server side
    of a channel is in one of Starlette's application states; the source
    only ever calls [accept] and [send_text] on it.  Whether the transport
    still takes a write is decided by the peer. *)

Inductive WebSocketState := CONNECTING | CONNECTED | DISCONNECTED.

Inductive json :=
  | JStr (s : string)
  | JIsoformat (t : datetime).

(** A message handed to [send_message]: a flat dict. *)
Definition Message := list (string * json).

Record WebSocket := {
  application_state : WebSocketState;
  peer_alive : bool;
  sent : list Message
}.

Record ConnectionManager := {
  active_connections : gmap string nat;
  client_sessions : gmap string ClientSession
}.

Inductive LogRecord :=
  | INFO (msg : string)
  | ERROR (msg : string).

(** The process-wide state: the module globals [vision_chat] and
    [manager], the live [WebSocket] objects, the log, and the clock
    ([utcnow_source n] is what the [n]-th call of [datetime.utcnow()]
    returns). *)
Record World := {
  vision_chat : option LlmChat;
  manager : ConnectionManager;
  websockets : gmap nat WebSocket;
  log : list LogRecord;
  utcnow_source : nat -> datetime;
  utcnow_calls : nat
}.

(** ** State and exceptions *)

Definition M (A : Type) : Type := World -> World * result A.

Definition ret {A} (a : A) : M A := fun w => (w, Ok a).

Definition bind {A B} (m : M A) (k : A -> M B) : M B :=
  fun w =>
    match m w with
    | (w', Ok a) => k a w'
    | (w', Raise e) => (w', Raise e)
    end.

Definition raise {A} (e : exn) : M A := fun w => (w, Raise e).

(** [try: m  except Exception as e: h e] *)
Definition try_except {A} (m : M A) (h : exn -> M A) : M A :=
  fun w =>
    match m w with
    | (w', Ok a) => (w', Ok a)
    | (w', Raise e) => h e w'
    end.

Definition lift {A} (r : result A) : M A := fun w => (w, r).

Declare Scope py_scope.
Delimit Scope py_scope with py.
Notation "x <- m ;; k" := (bind m (fun x => k))
  (at level 100, m at next level, right associativity) : py_scope.
Notation "m ;; k" := (bind m (fun _ => k))
  (at level 100, right associativity) : py_scope.
Local Open Scope py_scope.

Definition get_manager : M ConnectionManager := fun w => (w, Ok (manager w)).

Definition set_manager (m : ConnectionManager) : M unit :=
  fun w =>
    ({| vision_chat := vision_chat w; manager := m;
        websockets := websockets w; log := log w;
        utcnow_source := utcnow_source w; utcnow_calls := utcnow_calls w |},
     Ok tt).

Definition set_websocket (websocket : nat) (s : WebSocket) : M unit :=
  fun w =>
    ({| vision_chat := vision_chat w; manager := manager w;
        websockets := <[websocket := s]> (websockets w); log := log w;
        utcnow_source := utcnow_source w; utcnow_calls := utcnow_calls w |},
     Ok tt).

Definition logging (r : LogRecord) : M unit :=
  fun w =>
    ({| vision_chat := vision_chat w; manager := manager w;
        websockets := websockets w; log := (log w ++ [r])%list;
        utcnow_source := utcnow_source w; utcnow_calls := utcnow_calls w |},
     Ok tt).

(** [datetime.utcnow()] *)
Definition utcnow : M datetime :=
  fun w =>
    ({| vision_chat := vision_chat w; manager := manager w;
        websockets := websockets w; log := log w;
        utcnow_source := utcnow_source w; utcnow_calls := S (utcnow_calls w) |},
     Ok (utcnow_source w (utcnow_calls w))).

(** [await websocket.accept()] *)
Definition accept (websocket : nat) : M unit :=
  fun w =>
    match websockets w !! websocket with
    | Some s =>
        match application_state s with
        | CONNECTING =>
            set_websocket websocket
              {| application_state := CONNECTED; peer_alive := peer_alive s;
                 sent := sent s |} w
        | _ => (w, Raise (Exception "Cannot call accept on this WebSocket"))
        end
    | None => (w, Raise (Exception "Cannot call accept on this WebSocket"))
    end.

(** [await websocket.send_text(json.dumps(message))] *)
Definition send_text (websocket : nat) (message : Message) : M unit :=
  fun w =>
    match websockets w !! websocket with
    | Some s =>
        match application_state s with
        | CONNECTED =>
            if peer_alive s then
              set_websocket websocket
                {| application_state := CONNECTED; peer_alive := true;
                   sent := (sent s ++ [message])%list |} w
            else (w, Raise (Exception "Connection closed"))
        | _ => (w, Raise (Exception "WebSocket is not connected"))
        end
    | None => (w, Raise (Exception "WebSocket is not connected"))
    end.

(** ** [ConnectionManager] *)

Definition new_session : ClientSession :=
  {| last_scene_description := ""; conversation_history := [] |}.

Definition connect (websocket : nat) (client_id : string) : M unit :=
  accept websocket ;;
  m <- get_manager ;;
  set_manager
    {| active_connections := <[client_id := websocket]> (active_connections m);
       client_sessions := <[client_id := new_session]> (client_sessions m) |} ;;
  logging (INFO ("Client " ++ client_id ++ " connected")).

Definition disconnect (client_id : string) : M unit :=
  m <- get_manager ;;
  let active := match active_connections m !! client_id with
                | Some _ => delete client_id (active_connections m)
                | None => active_connections m
                end in
  let sessions := match client_sessions m !! client_id with
                  | Some _ => delete client_id (client_sessions m)
                  | None => client_sessions m
                  end in
  set_manager {| active_connections := active; client_sessions := sessions |} ;;
  logging (INFO ("Client " ++ client_id ++ " disconnected")).

Definition send_message (client_id : string) (message : Message) : M unit :=
  m <- get_manager ;;
  match active_connections m !! client_id with
  | Some websocket =>
      try_except (send_text websocket message)
        (fun e =>
           logging (ERROR ("Error sending message to " ++ client_id ++ ": " ++ exn_str e)) ;;
           disconnect client_id)
  | None => ret tt
  end.

(** The description a question is grounded on: the read of
    [client_sessions] at the head of [ask_question]. *)
Definition get_scene_description (m : ConnectionManager) (client_id : string) : string :=
  match client_sessions m !! client_id with
  | Some session => last_scene_description session
  | None => ""
  end.

(** ** Request handlers *)

(** The [except HTTPException: raise] / [except Exception as e: ...]
    pair that closes both handlers. *)
Definition http_errors {A} (logged detail : string) (m : M A) : M A :=
  try_except m
    (fun e =>
       match e with
       | HTTPException _ _ => raise e
       | _ =>
           logging (ERROR (logged ++ exn_str e)) ;;
           raise (HTTPException 500 (detail ++ exn_str e))
       end).

Definition require_vision_chat : M unit :=
  fun w =>
    match vision_chat w with
    | Some _ => (w, Ok tt)
    | None => (w, Raise (HTTPException 503 "Vision AI not available"))
    end.

Definition scene_system_message : string :=
  "You are Bujji, an AI vision assistant. Describe what you see in this webcam image in 1-2 natural sentences. Focus on the most important elements - people, objects, activities, or scenes. Be conversational and engaging.".

Definition scene_prompt : string :=
  "What do you see in this image? Describe it naturally in 1-2 sentences.".

(** The float literal [0.85]. *)
Definition placeholder_confidence : Q := Qmake 85 100.

(** [image_data.split(',')[1] if ',' in image_data else image_data]: the
    text handed to [b64decode] ([None] stands for an [IndexError]). *)
Definition payload (image_data : string) : option string :=
  if contains "," image_data then split "," image_data !! 1%nat
  else Some image_data.

(** [analyze_scene] up to [await scene_chat.send_message(user_message)]:
    the result is the collaborator call about to be made. *)
Definition analyze_scene_call (request : SceneAnalysisRequest.t)
    : M (LlmChat * UserMessage) :=
  http_errors "Scene analysis error: " "Scene analysis failed: " (
    require_vision_chat ;;
    image_data <-
      try_except
        (match payload (SceneAnalysisRequest.image_data request) with
         | Some part => lift (b64decode part)
         | None => raise (Exception "list index out of range")
         end)
        (fun e => raise (HTTPException 400 ("Invalid image data: " ++ exn_str e))) ;;
    let image_content := {| image_base64 := b64encode image_data |} in
    t <- utcnow ;;
    let scene_chat :=
      {| session_id := ("scene_" ++ SceneAnalysisRequest.client_id request ++ "_", Some t);
         system_message := scene_system_message;
         model := ("openai", "gpt-4o") |} in
    let user_message :=
      {| text := scene_prompt; file_contents := [image_content] |} in
    ret (scene_chat, user_message)).

(** [analyze_scene] from the point where the collaborator call returns
    [response] (a text, or an exception raised by the call). *)
Definition analyze_scene_resume (request : SceneAnalysisRequest.t)
    (response : result string) : M SceneAnalysisResponse.t :=
  http_errors "Scene analysis error: " "Scene analysis failed: " (
    response <- lift response ;;
    let description := strip response in
    m <- get_manager ;;
    match client_sessions m !! SceneAnalysisRequest.client_id request with
    | Some session =>
        set_manager
          {| active_connections := active_connections m;
             client_sessions :=
               <[SceneAnalysisRequest.client_id request :=
                   {| last_scene_description := description;
                      conversation_history := conversation_history session |}]>
                 (client_sessions m) |}
    | None => ret tt
    end ;;
    t <- utcnow ;;
    ret (SceneAnalysisResponse.mk description t placeholder_confidence)).

(** The whole handler when nothing else runs while it awaits: [llm] is
    the collaborator. *)
Definition analyze_scene (llm : LlmChat -> UserMessage -> result string)
    (request : SceneAnalysisRequest.t) : M SceneAnalysisResponse.t :=
  call <- analyze_scene_call request ;;
  analyze_scene_resume request (llm (fst call) (snd call)).

Definition qa_system_message (scene_context : string) : string :=
  "You are Bujji, an AI vision assistant. You have just analyzed a scene and described it as: '"
  ++ scene_context
  ++ "'. Now answer the user's question about this scene. Be conversational and helpful. If the question can't be answered from the scene description, say so politely.".

Definition qa_prompt (scene_context question : string) : string :=
  "Based on what you described about the scene ('" ++ scene_context
  ++ "'), please answer this question: " ++ question.

(** [ask_question] up to [await qa_chat.send_message(user_message)]: the
    scene context read and the collaborator call about to be made. *)
Definition ask_question_call (request : QuestionRequest.t)
    : M (string * (LlmChat * UserMessage)) :=
  http_errors "Question answering error: " "Question answering failed: " (
    require_vision_chat ;;
    m <- get_manager ;;
    let scene_context := get_scene_description m (QuestionRequest.client_id request) in
    if String.eqb scene_context "" then
      raise (HTTPException 400
        "No recent scene analysis available. Please capture a scene first.")
    else
      t <- utcnow ;;
      let qa_chat :=
        {| session_id := ("qa_" ++ QuestionRequest.client_id request ++ "_", Some t);
           system_message := qa_system_message scene_context;
           model := ("openai", "gpt-4o") |} in
      let user_message :=
        {| text := qa_prompt scene_context (QuestionRequest.question request);
           file_contents := [] |} in
      ret (scene_context, (qa_chat, user_message))).

(** [ask_question] from the point where the collaborator call returns. *)
Definition ask_question_resume (request : QuestionRequest.t)
    (scene_context : string) (response : result string) : M QuestionResponse.t :=
  http_errors "Question answering error: " "Question answering failed: " (
    response <- lift response ;;
    let answer := strip response in
    m <- get_manager ;;
    match client_sessions m !! QuestionRequest.client_id request with
    | Some session =>
        t <- utcnow ;;
        set_manager
          {| active_connections := active_connections m;
             client_sessions :=
               <[QuestionRequest.client_id request :=
                   {| last_scene_description := last_scene_description session;
                      conversation_history :=
                        (conversation_history session ++
                         [HistoryEntry.mk (QuestionRequest.question request)
                            answer scene_context t])%list |}]>
                 (client_sessions m) |}
    | None => ret tt
    end ;;
    t <- utcnow ;;
    ret (QuestionResponse.mk answer scene_context t)).

(** The whole handler when nothing else runs while it awaits and it is not
    cancelled; what other handlers do in between is in [step], and
    cancellation in [ask_question_task]. *)
Definition ask_question (llm : LlmChat -> UserMessage -> result string)
    (request : QuestionRequest.t) : M QuestionResponse.t :=
  call <- ask_question_call request ;;
  ask_question_resume request (fst call) (llm (fst (snd call)) (snd (snd call))).

(** ** Realtime endpoint *)

(** One turn of the [while True] loop of [websocket_endpoint] for the
    connection of [client_id].  [received] is what
    [json.loads(await websocket.receive_text()).get("type")] evaluates
    to: the value under ["type"] when it is a string, [None] otherwise,
    or the exception raised on the way ([WebSocketDisconnect] when the
    peer has closed).  The result tells whether the loop goes on. *)
Definition websocket_endpoint_turn (client_id : string)
    (received : result (option string)) : M bool :=
  try_except
    (type <- lift received ;;
     (if bool_decide (type = Some "ping") then
        send_message client_id [("type", JStr "pong")]
      else if bool_decide (type = Some "scene_update") then
        t <- utcnow ;;
        send_message client_id
          [("type", JStr "scene_acknowledged"); ("timestamp", JIsoformat t)]
      else ret tt) ;;
     ret true)
    (fun e =>
       match e with
       | WebSocketDisconnect => disconnect client_id
       | _ =>
           logging (ERROR ("WebSocket error for client " ++ client_id ++ ": " ++ exn_str e)) ;;
           disconnect client_id
       end ;;
       ret false).

(** ** The event loop

    Handlers run on one asyncio loop: a handler runs undisturbed until it
    awaits, and while it waits for its collaborator any other handler may
    run.  A [Server] is the world together with the handlers suspended at
    a collaborator call, the realtime endpoints that are looping, and the
    replies given so far. *)

Inductive Task :=
  | SceneTask (request : SceneAnalysisRequest.t) (chat : LlmChat) (message : UserMessage)
  | QuestionTask (request : QuestionRequest.t) (scene_context : string)
      (chat : LlmChat) (message : UserMessage).

Inductive Reply :=
  | SceneReply (r : result SceneAnalysisResponse.t)
  | QuestionReply (r : result QuestionResponse.t).

Record Server := {
  world : World;
  awaiting : gmap nat Task;
  endpoints : gmap nat string;
  submitted : nat;
  replies : list (nat * Reply)
}.

Inductive Event :=
  (** POST /api/analyze-scene; the request is numbered [submitted] *)
  | PostAnalyzeScene (request : SceneAnalysisRequest.t)
  (** POST /api/ask-question *)
  | PostAskQuestion (request : QuestionRequest.t)
  (** the collaborator call of request [id] returns or raises *)
  | CollaboratorReturns (id : nat) (response : result string)
  (** a client opens /ws/{client_id} *)
  | WebSocketOpens (client_id : string)
  (** [receive_text] of the endpoint of [websocket] returns or raises *)
  | WebSocketReceives (websocket : nat) (received : result (option string))
  (** the transport of [websocket] stops taking writes *)
  | PeerGone (websocket : nat).

Definition with_world (s : Server) (w : World) : Server :=
  {| world := w; awaiting := awaiting s; endpoints := endpoints s;
     submitted := submitted s; replies := replies s |}.

Definition suspend (s : Server) (w : World) (t : Task) : Server :=
  {| world := w; awaiting := <[submitted s := t]> (awaiting s);
     endpoints := endpoints s; submitted := S (submitted s);
     replies := replies s |}.

Definition reply_now (s : Server) (w : World) (r : Reply) : Server :=
  {| world := w; awaiting := awaiting s; endpoints := endpoints s;
     submitted := S (submitted s);
     replies := (replies s ++ [(submitted s, r)])%list |}.

Definition reply_to (s : Server) (id : nat) (w : World) (r : Reply) : Server :=
  {| world := w; awaiting := delete id (awaiting s); endpoints := endpoints s;
     submitted := submitted s;
     replies := (replies s ++ [(id, r)])%list |}.

Definition new_websocket : WebSocket :=
  {| application_state := CONNECTING; peer_alive := true; sent := [] |}.

Definition step (s : Server) (ev : Event) : Server :=
  match ev with
  | PostAnalyzeScene request =>
      match analyze_scene_call request (world s) with
      | (w, Ok (chat, message)) => suspend s w (SceneTask request chat message)
      | (w, Raise e) => reply_now s w (SceneReply (Raise e))
      end
  | PostAskQuestion request =>
      match ask_question_call request (world s) with
      | (w, Ok (scene_context, (chat, message))) =>
          suspend s w (QuestionTask request scene_context chat message)
      | (w, Raise e) => reply_now s w (QuestionReply (Raise e))
      end
  | CollaboratorReturns id response =>
      match awaiting s !! id with
      | Some (SceneTask request _ _) =>
          let (w, r) := analyze_scene_resume request response (world s) in
          reply_to s id w (SceneReply r)
      | Some (QuestionTask request scene_context _ _) =>
          let (w, r) := ask_question_resume request scene_context response (world s) in
          reply_to s id w (QuestionReply r)
      | None => s
      end
  | WebSocketOpens client_id =>
      let websocket := fresh (dom (websockets (world s))) in
      match (set_websocket websocket new_websocket ;;
             connect websocket client_id) (world s) with
      | (w, Ok _) =>
          {| world := w; awaiting := awaiting s;
             endpoints := <[websocket := client_id]> (endpoints s);
             submitted := submitted s; replies := replies s |}
      | (w, Raise _) => with_world s w
      end
  | WebSocketReceives websocket received =>
      match endpoints s !! websocket with
      | Some client_id =>
          match websocket_endpoint_turn client_id received (world s) with
          | (w, Ok true) => with_world s w
          | (w, _) =>
              {| world := w; awaiting := awaiting s;
                 endpoints := delete websocket (endpoints s);
                 submitted := submitted s; replies := replies s |}
          end
      | None => s
      end
  | PeerGone websocket =>
      match websockets (world s) !! websocket with
      | Some ws =>
          with_world s
            (fst (set_websocket websocket
                    {| application_state := application_state ws;
                       peer_alive := false; sent := sent ws |} (world s)))
      | None => s
      end
  end.

Definition run (s : Server) (evs : list Event) : Server := fold_left step evs s.

Definition initial_world (chat : option LlmChat) (clock : nat -> datetime) : World :=
  {| vision_chat := chat;
     manager := {| active_connections := ∅; client_sessions := ∅ |};
     websockets := ∅; log := []; utcnow_source := clock; utcnow_calls := 0 |}.

Definition boot (w : World) : Server :=
  {| world := w; awaiting := ∅; endpoints := ∅; submitted := 0; replies := [] |}.

(** The [vision_chat] that [startup_event] installs. *)
Definition startup_vision_chat : LlmChat :=
  {| session_id := ("vision_assistant", None);
     system_message := "You are Bujji, an AI vision assistant. You analyze images from a webcam and describe what you see in natural, conversational language. Focus on people, objects, activities, and the overall scene. Be concise but descriptive.";
     model := ("openai", "gpt-4o") |}.

(** ** Properties referred to by the statements below *)

(** The two dictionaries of the manager have the same keys. *)
Definition consistent (m : ConnectionManager) : Prop :=
  dom (active_connections m) = dom (client_sessions m).

(** Events of the HTTP handlers (no realtime endpoint involved). *)
Definition request_event (ev : Event) : Prop :=
  match ev with
  | PostAnalyzeScene _ | PostAskQuestion _ | CollaboratorReturns _ _ => True
  | _ => False
  end.

Definition consistent_world (w : World) : Prop := consistent (manager w).

(** A computation keeps property [P] of the world, whatever it returns or
    raises. *)
Definition preserves (P : World -> Prop) {A} (m : M A) : Prop :=
  forall w, P w -> P (fst (m w)).

(** The errors of [ask_question]. *)
Definition no_context : exn :=
  HTTPException 400 "No recent scene analysis available. Please capture a scene first.".

Definition backend_unavailable : exn :=
  HTTPException 503 "Vision AI not available".

(** The description that the scene analyses completed during [evs] leave
    for [client_id]: that of the last one whose collaborator call
    returned a text, or [d] when there is none. *)
Fixpoint last_completed (s : Server) (evs : list Event) (client_id : string)
    (d : string) : string :=
  match evs with
  | [] => d
  | ev :: evs' =>
      let d' :=
        match ev with
        | CollaboratorReturns id (Ok text) =>
            match awaiting s !! id with
            | Some (SceneTask request _ _) =>
                if bool_decide (SceneAnalysisRequest.client_id request = client_id)
                then strip text else d
            | _ => d
            end
        | _ => d
        end in
      last_completed (step s ev) evs' client_id d'
  end.

(** *** Sample inputs *)

Definition clock0 : nat -> datetime := fun n => Z.of_nat n.

Definition world0 : World := initial_world (Some startup_vision_chat) clock0.

Definition world_not_started : World := initial_world None clock0.

Definition world_backend_lost (w : World) : World :=
  {| vision_chat := None; manager := manager w; websockets := websockets w;
     log := log w; utcnow_source := utcnow_source w;
     utcnow_calls := utcnow_calls w |}.

(** A world where client ["client1"] holds a realtime connection. *)
Definition world1 : World :=
  fst ((set_websocket 0 new_websocket ;; connect 0 "client1") world0).

(** [world1] after a scene was analysed as ["a red chair"]. *)
Definition world2 : World :=
  fst (analyze_scene (fun _ _ => Ok "a red chair")
         (SceneAnalysisRequest.mk "QUJD" "client1") world1).

(** [world2] after the question ["what color?"] was answered with
    ["red"]: the history of ["client1"] has one entry. *)
Definition world3 : World :=
  fst (ask_question (fun _ _ => Ok "red")
         (QuestionRequest.mk "what color?" "client1") world2).

(** [world1] once the peer of its channel is gone. *)
Definition world1_peer_gone : World :=
  world (step (boot world1) (PeerGone 0)).

Definition red_chair (_ : LlmChat) (_ : UserMessage) : result string :=
  Ok "a red chair".

(** ** Health, speech transcription and start-up

    The second module global, [whisper_model], is written by
    [startup_event] only; the functions below take and return it next to
    the world.  A loaded Whisper model is the function from the content of
    an audio file to what [transcribe] returns for it. *)

Module WhisperResult.
Record t (Segment : Type) := mk {
  text : option string;
  language : option string;
  segments : option (list Segment)
}.
Arguments mk {Segment}.
Arguments text {Segment}.
Arguments language {Segment}.
Arguments segments {Segment}.
End WhisperResult.

Definition WhisperModel (Segment : Type) : Type :=
  bytes -> result (WhisperResult.t Segment).

Module Health.
Record t := mk {
  status : string;
  whisper_loaded : bool;
  vision_loaded : bool;
  timestamp : datetime
}.
End Health.

Definition get_vision_chat : M (option LlmChat) := fun w => (w, Ok (vision_chat w)).

Definition set_vision_chat (chat : option LlmChat) : M unit :=
  fun w =>
    ({| vision_chat := chat; manager := manager w;
        websockets := websockets w; log := log w;
        utcnow_source := utcnow_source w; utcnow_calls := utcnow_calls w |},
     Ok tt).

Definition health_check {Segment} (whisper_model : option (WhisperModel Segment))
    : M Health.t :=
  chat <- get_vision_chat ;;
  t <- utcnow ;;
  ret (Health.mk "healthy" (bool_decide (is_Some whisper_model))
         (bool_decide (is_Some chat)) t).

(** [startup_event]: [load_model] is what [whisper.load_model("base")]
    returns or raises, [emergent_key] the value of
    [os.environ.get('EMERGENT_LLM_KEY')]. *)
Definition startup_event {Segment} (load_model : result (WhisperModel Segment))
    (emergent_key : option string)
    (whisper_model : option (WhisperModel Segment)) (w : World)
    : option (WhisperModel Segment) * World * result unit :=
  let failed (whisper_model : option (WhisperModel Segment)) (e : exn) (w : World) :=
    (whisper_model,
     fst (logging (ERROR ("Startup error: " ++ exn_str e)) w),
     @Raise unit e) in
  let w := fst (logging (INFO "Loading Whisper model...") w) in
  match load_model with
  | Raise e => failed whisper_model e w
  | Ok model =>
      let whisper_model := Some model in
      let w := fst (logging (INFO "Whisper model loaded successfully") w) in
      let w := fst (logging (INFO "Initializing vision AI...") w) in
      match emergent_key with
      | None | Some "" =>
          failed whisper_model
            (Exception "EMERGENT_LLM_KEY not found in environment") w
      | Some _ =>
          let w := fst (set_vision_chat (Some startup_vision_chat) w) in
          let w := fst (logging (INFO "Vision AI initialized successfully") w) in
          (whisper_model, w, Ok tt)
      end
  end.

Record UploadFile := {
  content_type : option string;
  (** what [await file.read()] returns or raises *)
  read : result bytes
}.

Module Transcription.
Record t (Segment : Type) := mk {
  transcription : string;
  language : string;
  segments : list Segment
}.
Arguments mk {Segment}.
Arguments transcription {Segment}.
Arguments language {Segment}.
Arguments segments {Segment}.
End Transcription.

(** The files on disk, by path. *)
Definition FileSystem := gmap string bytes.

(** [not file.content_type or not file.content_type.startswith('audio/')] *)
Definition not_audio (content_type : option string) : bool :=
  match content_type with
  | None => true
  | Some t => String.eqb t "" || negb (String.prefix "audio/" t)
  end.

(** [whisper_model.transcribe(temp_file_path, fp16=False, language="en")] *)
Definition transcribe {Segment} (model : WhisperModel Segment) (fs : FileSystem)
    (path : string) : result (WhisperResult.t Segment) :=
  match fs !! path with
  | Some audio => model audio
  | None => Raise (Exception ("No such file or directory: " ++ path))
  end.

(** What [temp_file.write(content)] does: it writes all of the content,
    or raises after having written [partial]. *)
Inductive WriteOutcome :=
  | Written
  | WriteRaises (partial : bytes) (e : exn).

(** [transcribe_audio]; [temp_file_path] is the name that
    [NamedTemporaryFile(delete=False, suffix=".tmp")] picks and [written]
    what the write to that file does. *)
Definition transcribe_audio {Segment} (whisper_model : option (WhisperModel Segment))
    (file : UploadFile) (written : WriteOutcome) (temp_file_path : string)
    (fs : FileSystem) (w : World)
    : FileSystem * (World * result (Transcription.t Segment)) :=
  let handled (fs : FileSystem) (r : result (Transcription.t Segment)) :=
    (fs, http_errors "Audio transcription error: " "Transcription failed: " (lift r) w) in
  match whisper_model with
  | None => handled fs (Raise (HTTPException 503 "Whisper model not available"))
  | Some model =>
      if not_audio (content_type file) then
        handled fs (Raise (HTTPException 400 "File must be an audio format"))
      else
        let fs := <[temp_file_path := []]> fs in
        match read file with
        | Raise e => handled fs (Raise e)
        | Ok content =>
            match written with
            | WriteRaises partial e =>
                handled (<[temp_file_path := partial]> fs) (Raise e)
            | Written =>
                let fs := <[temp_file_path := content]> fs in
                let outcome :=
                  match transcribe model fs temp_file_path with
                  | Ok result =>
                      match WhisperResult.text result with
                      | Some text =>
                          Ok (Transcription.mk (strip text)
                                (default "en" (WhisperResult.language result))
                                (default [] (WhisperResult.segments result)))
                      | None => Raise (Exception "'text'")
                      end
                  | Raise e => Raise e
                  end in
                let fs := delete temp_file_path fs in
                handled fs outcome
            end
        end
  end.

(** A Whisper model for the sample inputs. *)
Definition sample_whisper : WhisperModel string :=
  fun audio =>
    Ok (WhisperResult.mk (Some " hello world ") None (Some ["hello"; "world"])).

Definition wav_upload : UploadFile :=
  {| content_type := Some "audio/wav";
     read := Ok (list_byte_of_string "RIFF") |}.

(** ** Cancellation

    [exn] holds the exceptions that an [except Exception] clause catches.
    A handler waiting at an [await] can also be cancelled by the event
    loop: [asyncio.CancelledError] is then raised at the await.  It
    derives from [BaseException] only, so none of the source's
    [except HTTPException], [except WebSocketDisconnect] or
    [except Exception] clauses catches it: it leaves the handler at once,
    with nothing logged and nothing undone.  An [outcome] is what an
    [await], or a handler that awaits, ends with. *)
Inductive outcome (A : Type) : Type :=
  | Done (r : result A)
  | CancelledError.
Arguments Done {A} r.
Arguments CancelledError {A}.

(** [analyze_scene] from its [await] on, cancellation included. *)
Definition analyze_scene_awaited (request : SceneAnalysisRequest.t)
    (a : outcome string) (w : World) : World * outcome SceneAnalysisResponse.t :=
  match a with
  | Done response =>
      let (w', r) := analyze_scene_resume request response w in (w', Done r)
  | CancelledError => (w, CancelledError)
  end.

(** The whole of [analyze_scene], with a collaborator whose call may
    return, raise, or be cancelled. *)
Definition analyze_scene_task (llm : LlmChat -> UserMessage -> outcome string)
    (request : SceneAnalysisRequest.t) (w : World)
    : World * outcome SceneAnalysisResponse.t :=
  match analyze_scene_call request w with
  | (w1, Ok call) => analyze_scene_awaited request (llm (fst call) (snd call)) w1
  | (w1, Raise e) => (w1, Done (Raise e))
  end.

(** [ask_question] from its [await] on, cancellation included. *)
Definition ask_question_awaited (request : QuestionRequest.t)
    (scene_context : string) (a : outcome string) (w : World)
    : World * outcome QuestionResponse.t :=
  match a with
  | Done response =>
      let (w', r) := ask_question_resume request scene_context response w in
      (w', Done r)
  | CancelledError => (w, CancelledError)
  end.

Definition ask_question_task (llm : LlmChat -> UserMessage -> outcome string)
    (request : QuestionRequest.t) (w : World)
    : World * outcome QuestionResponse.t :=
  match ask_question_call request w with
  | (w1, Ok call) =>
      ask_question_awaited request (fst call)
        (llm (fst (snd call)) (snd (snd call))) w1
  | (w1, Raise e) => (w1, Done (Raise e))
  end.


(** The number of characters of [s] that belong to the base64 alphabet
    (the data characters that [a2b_base64_loop] does not skip). *)
Fixpoint data_characters (s : string) : Z :=
  match s with
  | EmptyString => 0
  | String c s' =>
      match table_a2b_base64 c with
      | Some _ => 1
      | None => 0
      end + data_characters s'
  end.

(** Whether a text begins, or ends, with a character that [strip]
    removes. *)
Definition starts_with_space (s : string) : bool :=
  match s with
  | String c _ => isspace c
  | EmptyString => false
  end.

Fixpoint ends_with_space (s : string) : bool :=
  match s with
  | EmptyString => false
  | String c EmptyString => isspace c
  | String _ s' => ends_with_space s'
  end.

(** Checks on the bit arithmetic of [b64encode] and [a2b_base64_loop],
    decided by running them over all bytes: the sextets made of a byte
    [x] (and of the next byte [y]) are below 64, and putting them together
    again gives back [x]. *)
Definition sextet (s : Z) : bool := (0 <=? s) && (s <? 64).

Definition same_byte (v x : Z) : bool := Z.land v 255 =? Z.land x 255.

Definition byte_check (x : Z) : bool :=
  sextet (Z.shiftr x 2) && sextet (Z.land x 63)
  && sextet (Z.shiftl (Z.land x 3) 4) && sextet (Z.shiftl (Z.land x 15) 2)
  && same_byte (Z.lor (Z.shiftl (Z.shiftr x 2) 2)
                  (Z.shiftr (Z.shiftl (Z.land x 3) 4) 4)) x
  && same_byte (Z.lor (Z.shiftl (Z.shiftr x 4) 4)
                  (Z.shiftr (Z.shiftl (Z.land x 15) 2) 2)) x
  && same_byte (Z.lor (Z.shiftl (Z.shiftr x 6) 6) (Z.land x 63)) x
  && (Z.land (Z.land x 63) 255 =? Z.land x 63).

Definition pair_check (x y : Z) : bool :=
  let s2 := Z.lor (Z.shiftl (Z.land x 3) 4) (Z.shiftr y 4) in
  let s3 := Z.lor (Z.shiftl (Z.land x 15) 2) (Z.shiftr y 6) in
  sextet s2
  && same_byte (Z.lor (Z.shiftl (Z.shiftr x 2) 2) (Z.shiftr s2 4)) x
  && (Z.land s2 15 =? Z.shiftr y 4)
  && sextet s3
  && same_byte (Z.lor (Z.shiftl (Z.shiftr x 4) 4) (Z.shiftr s3 2)) x
  && (Z.land s3 3 =? Z.shiftr y 6).

(** ** Proof automation *)

Ltac unfold_m :=
  unfold analyze_scene, analyze_scene_call, analyze_scene_resume,
    ask_question, ask_question_call, ask_question_resume,
    websocket_endpoint_turn, send_message, connect, disconnect,
    http_errors, require_vision_chat, send_text, accept,
    try_except, bind, ret, raise, lift, get_manager, set_manager,
    set_websocket, logging, utcnow in *.

Ltac crunch :=
  unfold_m; simpl in *; try done;
  repeat (case_match; simpl in *; simplify_eq; try done).

Ltac split_checks H :=
  unfold byte_check, pair_check in H; cbv zeta in H;
  repeat match goal with
         | H' : (_ && _) = true |- _ => apply andb_prop in H' as [? ?]
         end.

(** ** Sanity checks of the library models *)

Example strip_red_chair : strip "  a red chair
" = "a red chair".
Proof. reflexivity. Qed.

Example strip_keeps_inner : strip "a red chair" = "a red chair".
Proof. reflexivity. Qed.

Example split_data_url :
  split "," "data:image/jpeg;base64,AAAA,x" = ["data:image/jpeg;base64"; "AAAA"; "x"].
Proof. reflexivity. Qed.

Example b64decode_text : b64decode "bm90LWFuLWltYWdl" = Ok (list_byte_of_string "not-an-image").
Proof. reflexivity. Qed.

Example b64encode_text : b64encode (list_byte_of_string "not-an-image") = "bm90LWFuLWltYWdl".
Proof. reflexivity. Qed.

Example b64decode_invalid_base64 :
  b64decode "invalid_base64" =
  Raise (Exception "Invalid base64-encoded string: number of data characters (13) cannot be 1 more than a multiple of 4").
Proof. reflexivity. Qed.

Example b64decode_not_an_image : b64decode "not-an-image" = Raise (Exception "Incorrect padding").
Proof. reflexivity. Qed.

Example b64decode_pad_then_data : b64decode "AA=A" = Raise (Exception "Incorrect padding").
Proof. reflexivity. Qed.

Example b64decode_stops_at_pad : b64decode "QQ==QQ==" = Ok (list_byte_of_string "A").
Proof. reflexivity. Qed.

(** ** The handlers and the manager's dictionaries *)

Lemma analyze_scene_call_manager request w :
  manager (fst (analyze_scene_call request w)) = manager w /\
  websockets (fst (analyze_scene_call request w)) = websockets w /\
  vision_chat (fst (analyze_scene_call request w)) = vision_chat w.
Proof. crunch. Qed.

Lemma ask_question_call_manager request w :
  manager (fst (ask_question_call request w)) = manager w /\
  websockets (fst (ask_question_call request w)) = websockets w /\
  vision_chat (fst (ask_question_call request w)) = vision_chat w.
Proof. crunch. Qed.

(** ** Question answering: preconditions *)

(** C10: when the vision backend is not initialised, [ask_question] fails
    with the 503 error whatever the client's session holds, before the
    scene context is looked at; no collaborator call is issued and the
    state is left as it was. *)
Theorem C10_backend_check_first (w : World) (request : QuestionRequest.t)
    (Hnone : vision_chat w = None) :
  ask_question_call request w = (w, Raise backend_unavailable) /\
  (forall llm, ask_question llm request w = (w, Raise backend_unavailable)) /\
  (forall s, world s = w ->
     step s (PostAskQuestion request) =
     reply_now s w (QuestionReply (Raise backend_unavailable))).
Proof.
  assert (Hcall : ask_question_call request w = (w, Raise backend_unavailable))
    by (crunch).
  split; [exact Hcall|]. split.
  - intros llm. unfold ask_question, bind. by rewrite Hcall.
  - intros s <-. simpl. by rewrite Hcall.
Qed.

(** C4 (as stated, refuted): with the backend not initialised, a client
    without a scene description gets the 503 error, not the 400 one. *)
Lemma C4_counterexample :
  let request := QuestionRequest.mk "What do you see?" "nonexistent_client" in
  get_scene_description (manager world_not_started) "nonexistent_client" = "" /\
  ask_question red_chair request world_not_started =
    (world_not_started, Raise backend_unavailable) /\
  backend_unavailable <> no_context.
Proof. split; [reflexivity|]. split; [reflexivity|]. discriminate. Qed.

(** C4 (amended): for a client without a stored scene description,
    [ask_question] fails before it issues any collaborator call and leaves
    the state as it was; the error is the 400 "no context" one when the
    vision backend is initialised, and the 503 one otherwise. *)
Theorem C4_no_context (w : World) (request : QuestionRequest.t)
    (Hempty : get_scene_description (manager w) (QuestionRequest.client_id request) = "") :
  let e := match vision_chat w with
           | Some _ => no_context
           | None => backend_unavailable
           end in
  ask_question_call request w = (w, Raise e) /\
  (forall llm, ask_question llm request w = (w, Raise e)) /\
  (forall s, world s = w ->
     awaiting (step s (PostAskQuestion request)) = awaiting s /\
     replies (step s (PostAskQuestion request)) =
       (replies s ++ [(submitted s, QuestionReply (Raise e))])%list).
Proof.
  intros e.
  assert (Hcall : ask_question_call request w = (w, Raise e)).
  { subst e. unfold ask_question_call, http_errors, try_except, bind,
      require_vision_chat, get_manager.
    destruct (vision_chat w); simpl; [|done].
    by rewrite Hempty. }
  split; [exact Hcall|]. split.
  - intros llm. unfold ask_question, bind. by rewrite Hcall.
  - intros s <-. simpl. by rewrite Hcall.
Qed.

Lemma C4_no_context_witness :
  get_scene_description (manager world1) "client1" = "" /\
  ask_question_call (QuestionRequest.mk "what color?" "client1") world1 =
    (world1, Raise no_context).
Proof.
  split; [reflexivity|].
  apply (C4_no_context world1 (QuestionRequest.mk "what color?" "client1")).
  reflexivity.
Defined.

Lemma C10_backend_check_first_witness :
  get_scene_description (manager (world_backend_lost world2)) "client1" = "a red chair" /\
  ask_question_call (QuestionRequest.mk "what color?" "client1")
    (world_backend_lost world2) =
    (world_backend_lost world2, Raise backend_unavailable).
Proof.
  split; [reflexivity|].
  apply (C10_backend_check_first (world_backend_lost world2)
           (QuestionRequest.mk "what color?" "client1")).
  reflexivity.
Defined.

(** ** The realtime registry *)

Lemma disconnect_ok client_id w : snd (disconnect client_id w) = Ok tt.
Proof. crunch. Qed.

Lemma disconnect_lookup client_id w :
  active_connections (manager (fst (disconnect client_id w))) !! client_id = None /\
  client_sessions (manager (fst (disconnect client_id w))) !! client_id = None.
Proof.
  unfold_m; simpl.
  split; case_match; try done; apply lookup_delete_eq.
Qed.

Lemma disconnect_absent client_id w :
  active_connections (manager w) !! client_id = None ->
  client_sessions (manager w) !! client_id = None ->
  manager (fst (disconnect client_id w)) = manager w.
Proof.
  intros Ha Hs. unfold_m; simpl. rewrite Ha, Hs. by destruct (manager w).
Qed.

Lemma disconnect_rest client_id w :
  websockets (fst (disconnect client_id w)) = websockets w /\
  vision_chat (fst (disconnect client_id w)) = vision_chat w.
Proof. crunch. Qed.

(** C7: [disconnect] never raises; called a second time in a row, or for
    an identifier that is in neither dictionary, it leaves the manager
    (registry and sessions) and the channels exactly as they were. *)
Theorem C7_disconnect_idempotent (w : World) (client_id : string) :
  let w1 := fst (disconnect client_id w) in
  let w2 := fst (disconnect client_id w1) in
  snd (disconnect client_id w) = Ok tt /\
  snd (disconnect client_id w1) = Ok tt /\
  manager w2 = manager w1 /\
  websockets w2 = websockets w1 /\
  (active_connections (manager w) !! client_id = None ->
   client_sessions (manager w) !! client_id = None ->
   manager w1 = manager w /\ websockets w1 = websockets w).
Proof.
  intros w1 w2. split; [apply disconnect_ok|]. split; [apply disconnect_ok|].
  destruct (disconnect_lookup client_id w) as [Ha Hs].
  split; [by apply disconnect_absent|].
  split; [apply disconnect_rest|].
  intros Ha' Hs'. split; [by apply disconnect_absent | apply disconnect_rest].
Qed.

Lemma send_message_ok client_id message w :
  snd (send_message client_id message w) = Ok tt.
Proof. crunch. Qed.

(** C6 (as stated, refuted): with no channel registered for the
    identifier, [send_message] does not trigger [disconnect]: it returns at
    once and the world, log included, is exactly as before, where
    [disconnect] would have written its log record. *)
Lemma C6_counterexample :
  send_message "nobody" [("type", JStr "pong")] world0 = (world0, Ok tt) /\
  log world0 = [] /\
  log (fst (disconnect "nobody" world0)) = [INFO "Client nobody disconnected"] /\
  fst (send_message "nobody" [("type", JStr "pong")] world0) <>
    fst (disconnect "nobody" world0).
Proof.
  split; [reflexivity|]. split; [reflexivity|]. split; [reflexivity|].
  intros H. apply (f_equal log) in H. discriminate H.
Qed.

(** C6 (amended): [send_message] never reports a failure to its caller.
    When the write to the registered channel raises, the error is logged
    and [disconnect] is run for the identifier, which removes its channel
    entry and its session.  When no channel is registered, nothing is
    done at all: [disconnect] is not run, nothing is logged and the world
    is untouched.  Either way the identifier has no registered channel
    afterwards. *)
Theorem C6_send_failures (w : World) (client_id : string) (message : Message)
    (Hfail : active_connections (manager w) !! client_id = None \/
             exists websocket e,
               active_connections (manager w) !! client_id = Some websocket /\
               snd (send_text websocket message w) = Raise e) :
  let out := send_message client_id message w in
  snd out = Ok tt /\
  active_connections (manager (fst out)) !! client_id = None /\
  match active_connections (manager w) !! client_id with
  | None => fst out = w
  | Some websocket =>
      exists e,
        snd (send_text websocket message w) = Raise e /\
        fst out =
          fst (disconnect client_id
                 (fst (logging (ERROR ("Error sending message to " ++ client_id
                                       ++ ": " ++ exn_str e)) w))) /\
        client_sessions (manager (fst out)) !! client_id = None
  end.
Proof.
  intros out. subst out. split; [apply send_message_ok|].
  unfold send_message, bind, get_manager, try_except. cbn [fst snd].
  destruct Hfail as [Ha | (websocket & e & Ha & Hsend)]; rewrite Ha.
  - done.
  - destruct (send_text websocket message w) as [w1 [[]|e1]] eqn:E;
      simpl in Hsend; [done|]. simplify_eq.
    assert (w1 = w) as -> by (revert E; crunch; congruence).
    pose proof (disconnect_lookup client_id
                  (fst (logging (ERROR ("Error sending message to " ++ client_id
                                        ++ ": " ++ exn_str e)) w))) as [Hl1 Hl2].
    unfold logging in *. cbn [fst snd] in *.
    split; [exact Hl1|]. exists e. split; [done|]. split; [|exact Hl2].
    by destruct (disconnect client_id _) as [w2 r].
Qed.

Lemma C7_disconnect_idempotent_witness :
  manager (fst (disconnect "client1" (fst (disconnect "client1" world2)))) =
    manager (fst (disconnect "client1" world2)) /\
  manager (fst (disconnect "nobody" world2)) = manager world2.
Proof.
  pose proof (C7_disconnect_idempotent world2 "client1") as (_ & _ & H & _).
  pose proof (C7_disconnect_idempotent world2 "nobody") as (_ & _ & _ & _ & H').
  split; [exact H|]. apply H'; reflexivity.
Defined.

Lemma C6_send_failures_witness :
  (active_connections (manager world0) !! "nobody" = None /\
   send_message "nobody" [("type", JStr "pong")] world0 = (world0, Ok tt)) /\
  (active_connections (manager world1_peer_gone) !! "client1" = Some 0%nat /\
   snd (send_text 0 [("type", JStr "pong")] world1_peer_gone) =
     Raise (Exception "Connection closed") /\
   snd (send_message "client1" [("type", JStr "pong")] world1_peer_gone) = Ok tt /\
   active_connections
     (manager (fst (send_message "client1" [("type", JStr "pong")] world1_peer_gone)))
     !! "client1" = None).
Proof.
  split.
  - split; [reflexivity|].
    destruct (C6_send_failures world0 "nobody" [("type", JStr "pong")])
      as (H1 & _ & H3); [by left|].
    rewrite (surjective_pairing (send_message _ _ _)). simpl in H3.
    by rewrite H1, H3.
  - split; [reflexivity|]. split; [reflexivity|].
    destruct (C6_send_failures world1_peer_gone "client1" [("type", JStr "pong")])
      as (H1 & H2 & _).
    + right. exists 0%nat, (Exception "Connection closed"). split; reflexivity.
    + split; [exact H1 | exact H2].
Defined.

(** *** The manager's dictionaries keep the same keys *)

Lemma guarded_delete {A} (m : gmap string A) (k : string) :
  match m !! k with Some _ => delete k m | None => m end = delete k m.
Proof. destruct (m !! k) eqn:E; [done|]. by rewrite delete_id. Qed.

Lemma disconnect_manager client_id w :
  manager (fst (disconnect client_id w)) =
  {| active_connections := delete client_id (active_connections (manager w));
     client_sessions := delete client_id (client_sessions (manager w)) |}.
Proof. unfold_m; simpl. by rewrite !guarded_delete. Qed.

Lemma disconnect_consistent client_id w :
  consistent (manager w) -> consistent (manager (fst (disconnect client_id w))).
Proof.
  unfold consistent. intros H. rewrite disconnect_manager. simpl.
  rewrite !dom_delete_L. by rewrite H.
Qed.

Lemma connect_consistent websocket client_id w :
  consistent (manager w) ->
  consistent (manager (fst (connect websocket client_id w))).
Proof.
  unfold consistent. intros H. unfold_m; simpl.
  repeat (case_match; simplify_eq; simpl; try done).
  rewrite !dom_insert_L. by rewrite H.
Qed.

Lemma send_text_raises websocket message w w1 e :
  send_text websocket message w = (w1, Raise e) -> w1 = w.
Proof. crunch; congruence. Qed.

Lemma send_text_manager websocket message w :
  manager (fst (send_text websocket message w)) = manager w.
Proof. crunch. Qed.

Section Preservation.
Variable P : World -> Prop.

Lemma preserves_ret {A} (a : A) : preserves P (ret a).
Proof. by intros w. Qed.

Lemma preserves_raise {A} (e : exn) : preserves P (@raise A e).
Proof. by intros w. Qed.

Lemma preserves_lift {A} (r : result A) : preserves P (lift r).
Proof. by intros w. Qed.

Lemma preserves_bind {A B} (m : M A) (k : A -> M B) :
  preserves P m -> (forall a, preserves P (k a)) -> preserves P (bind m k).
Proof.
  intros Hm Hk w Hw. unfold bind. specialize (Hm w Hw).
  destruct (m w) as [w' [a|e]]; simpl in *; [by apply Hk | done].
Qed.

Lemma preserves_try_except {A} (m : M A) (h : exn -> M A) :
  preserves P m -> (forall e, preserves P (h e)) -> preserves P (try_except m h).
Proof.
  intros Hm Hh w Hw. unfold try_except. specialize (Hm w Hw).
  destruct (m w) as [w' [a|e]]; simpl in *; [done | by apply Hh].
Qed.
End Preservation.

Lemma logging_consistent r : preserves consistent_world (logging r).
Proof. by intros w. Qed.

Lemma utcnow_consistent : preserves consistent_world utcnow.
Proof. by intros w. Qed.

Lemma get_manager_consistent : preserves consistent_world get_manager.
Proof. by intros w. Qed.

Lemma send_text_consistent websocket message :
  preserves consistent_world (send_text websocket message).
Proof. intros w H. unfold consistent_world. by rewrite send_text_manager. Qed.

Lemma disconnect_preserves client_id :
  preserves consistent_world (disconnect client_id).
Proof. intros w. apply disconnect_consistent. Qed.

Lemma send_message_consistent client_id message :
  preserves consistent_world (send_message client_id message).
Proof.
  unfold send_message.
  apply preserves_bind; [apply get_manager_consistent|]. intros m.
  destruct (active_connections m !! client_id); [|apply preserves_ret].
  apply preserves_try_except; [apply send_text_consistent|]. intros e.
  apply preserves_bind; [apply logging_consistent|]. intros _.
  apply disconnect_preserves.
Qed.

Lemma websocket_endpoint_turn_consistent client_id received :
  preserves consistent_world (websocket_endpoint_turn client_id received).
Proof.
  unfold websocket_endpoint_turn.
  apply preserves_try_except.
  - apply preserves_bind; [apply preserves_lift|]. intros type.
    apply preserves_bind; [|intros; apply preserves_ret].
    repeat case_bool_decide.
    + apply send_message_consistent.
    + apply preserves_bind; [apply utcnow_consistent|]. intros t.
      apply send_message_consistent.
    + apply preserves_ret.
  - intros e. apply preserves_bind; [|intros; apply preserves_ret].
    destruct e; try apply disconnect_preserves;
      (apply preserves_bind; [apply logging_consistent|]; intros _;
       apply disconnect_preserves).
Qed.

Lemma analyze_scene_resume_dom request response w :
  active_connections (manager (fst (analyze_scene_resume request response w))) =
    active_connections (manager w) /\
  dom (client_sessions (manager (fst (analyze_scene_resume request response w)))) =
    dom (client_sessions (manager w)).
Proof.
  unfold_m; simpl. destruct response as [text|e]; simpl.
  - destruct (client_sessions (manager w) !! SceneAnalysisRequest.client_id request)
      eqn:E; simpl; [|done].
    split; [done|]. by rewrite dom_insert_lookup_L.
  - by destruct e.
Qed.

Lemma ask_question_resume_dom request scene_context response w :
  active_connections
    (manager (fst (ask_question_resume request scene_context response w))) =
    active_connections (manager w) /\
  dom (client_sessions
         (manager (fst (ask_question_resume request scene_context response w)))) =
    dom (client_sessions (manager w)).
Proof.
  unfold_m; simpl. destruct response as [text|e]; simpl.
  - destruct (client_sessions (manager w) !! QuestionRequest.client_id request)
      eqn:E; simpl; [|done].
    split; [done|]. by rewrite dom_insert_lookup_L.
  - by destruct e.
Qed.

Lemma step_consistent s ev :
  consistent_world (world s) -> consistent_world (world (step s ev)).
Proof.
  unfold consistent_world. intros H. destruct ev as [r|r|id response|c|ws rc|ws]; simpl.
  - pose proof (analyze_scene_call_manager r (world s)) as (Hm & _).
    destruct (analyze_scene_call r (world s)) as [w [[chat msg]|e]];
      simpl in *; by rewrite Hm.
  - pose proof (ask_question_call_manager r (world s)) as (Hm & _).
    destruct (ask_question_call r (world s)) as [w [[ctx [chat msg]]|e]];
      simpl in *; by rewrite Hm.
  - destruct (awaiting s !! id) as [[r chat msg|r ctx chat msg]|]; [| |done].
    + pose proof (analyze_scene_resume_dom r response (world s)) as [Ha Hs].
      destruct (analyze_scene_resume r response (world s)) as [w res]; simpl in *.
      unfold consistent in *. by rewrite Ha, Hs.
    + pose proof (ask_question_resume_dom r ctx response (world s)) as [Ha Hs].
      destruct (ask_question_resume r ctx response (world s)) as [w res]; simpl in *.
      unfold consistent in *. by rewrite Ha, Hs.
  - unfold bind at 1. simpl.
    match goal with |- context [connect ?a ?b ?c] =>
      pose proof (connect_consistent a b c H) as Hc;
      destruct (connect a b c) as [w [[]|e]] end; done.
  - destruct (endpoints s !! ws) as [c|]; [|done].
    pose proof (websocket_endpoint_turn_consistent c rc (world s) H) as Hc.
    destruct (websocket_endpoint_turn c rc (world s)) as [w [[|]|e]]; done.
  - by destruct (websockets (world s) !! ws).
Qed.

Lemma run_consistent evs : forall s,
  consistent_world (world s) -> consistent_world (world (run s evs)).
Proof.
  induction evs as [|ev evs IH]; intros s H; [done|].
  simpl. apply IH. by apply step_consistent.
Qed.

(** In every state the server reaches from its start the two
    dictionaries of the manager have the same keys. *)
Corollary reachable_consistent chat clock evs :
  consistent (manager (world (run (boot (initial_world chat clock)) evs))).
Proof. apply run_consistent. unfold consistent_world, consistent. done. Qed.

(** *** Registering twice *)

Lemma connect_fresh websocket client_id w s :
  websockets w !! websocket = Some s ->
  application_state s = CONNECTING ->
  connect websocket client_id w =
  ({| vision_chat := vision_chat w;
      manager :=
        {| active_connections := <[client_id := websocket]> (active_connections (manager w));
           client_sessions := <[client_id := new_session]> (client_sessions (manager w)) |};
      websockets :=
        <[websocket := {| application_state := CONNECTED;
                          peer_alive := peer_alive s; sent := sent s |}]> (websockets w);
      log := (log w ++ [INFO ("Client " ++ client_id ++ " connected")])%list;
      utcnow_source := utcnow_source w; utcnow_calls := utcnow_calls w |},
   Ok tt).
Proof. intros Hs Hc. unfold_m; simpl. rewrite Hs, Hc. done. Qed.

(** C3 (as stated, refuted): after two connections for ["client1"] the
    first channel is still in the state [accept] put it in; it was
    dropped from the registry, not closed. *)
Lemma C3_counterexample :
  let s := run (boot world0) [WebSocketOpens "client1"; WebSocketOpens "client1"] in
  active_connections (manager (world s)) !! "client1" = Some 1%nat /\
  application_state <$> websockets (world s) !! 0%nat = Some CONNECTED /\
  application_state <$> websockets (world s) !! 0%nat <> Some DISCONNECTED.
Proof. vm_compute. split; [reflexivity|]. split; [reflexivity|]. discriminate. Qed.

(** C3 (amended): two connections in a row for one identifier both
    succeed and leave exactly one channel registered for it, the second;
    the session is a fresh one.  The first channel stays accepted and
    open: it is replaced in the registry without being closed. *)
Theorem C3_second_connect_replaces (w : World) (first second : nat)
    (client_id : string) (s1 s2 : WebSocket)
    (Hne : first <> second)
    (H1 : websockets w !! first = Some s1)
    (H2 : websockets w !! second = Some s2)
    (Hc1 : application_state s1 = CONNECTING)
    (Hc2 : application_state s2 = CONNECTING) :
  let w' := fst ((connect first client_id ;; connect second client_id) w) in
  snd ((connect first client_id ;; connect second client_id) w) = Ok tt /\
  (forall websocket,
     active_connections (manager w') !! client_id = Some websocket <->
     websocket = second) /\
  client_sessions (manager w') !! client_id = Some new_session /\
  application_state <$> websockets w' !! first = Some CONNECTED /\
  application_state <$> websockets w' !! second = Some CONNECTED.
Proof.
  intros w'. subst w'. unfold bind.
  rewrite (connect_fresh first client_id w s1 H1 Hc1).
  erewrite connect_fresh; [| simpl; rewrite lookup_insert_ne by done; exact H2 | exact Hc2].
  simpl. split; [done|]. split; [|split; [|split]].
  - intros websocket. rewrite lookup_insert_eq. split; [congruence|by intros ->].
  - apply lookup_insert_eq.
  - rewrite lookup_insert_ne by done. by rewrite lookup_insert_eq.
  - by rewrite lookup_insert_eq.
Qed.

Lemma C3_second_connect_replaces_witness :
  let w := fst ((set_websocket 0 new_websocket ;; set_websocket 1 new_websocket) world0) in
  let w' := fst ((connect 0 "client1" ;; connect 1 "client1") w) in
  active_connections (manager w') !! "client1" = Some 1%nat /\
  application_state <$> websockets w' !! 0%nat = Some CONNECTED.
Proof.
  intros w w'.
  pose proof (C3_second_connect_replaces w 0 1 "client1" new_websocket new_websocket)
    as H.
  destruct H as (_ & Hreg & _ & Hopen & _);
    [lia | reflexivity | reflexivity | reflexivity | reflexivity |].
  split; [by apply Hreg | exact Hopen].
Defined.

(** ** Scene analysis *)

(** What [analyze_scene] does once its collaborator has returned a text. *)
Lemma analyze_scene_resume_text request text w :
  analyze_scene_resume request (Ok text) w =
  ({| vision_chat := vision_chat w;
      manager :=
        match client_sessions (manager w) !! SceneAnalysisRequest.client_id request with
        | Some session =>
            {| active_connections := active_connections (manager w);
               client_sessions :=
                 <[SceneAnalysisRequest.client_id request :=
                     {| last_scene_description := strip text;
                        conversation_history := conversation_history session |}]>
                   (client_sessions (manager w)) |}
        | None => manager w
        end;
      websockets := websockets w; log := log w;
      utcnow_source := utcnow_source w; utcnow_calls := S (utcnow_calls w) |},
   Ok (SceneAnalysisResponse.mk (strip text)
         (utcnow_source w (utcnow_calls w)) placeholder_confidence)).
Proof. unfold_m; simpl. by destruct (client_sessions (manager w) !! _). Qed.

Lemma analyze_scene_resume_raise request e w :
  exists w' e', analyze_scene_resume request (Raise e) w = (w', Raise e') /\
                manager w' = manager w.
Proof. unfold_m; simpl. destruct e; eauto. Qed.

(** A started call suspends with the state untouched but for the clock. *)
Lemma analyze_scene_call_ok request w w1 call :
  analyze_scene_call request w = (w1, Ok call) ->
  manager w1 = manager w /\ vision_chat w1 = vision_chat w /\
  websockets w1 = websockets w.
Proof.
  intros H. pose proof (analyze_scene_call_manager request w) as (Hm & Hs & Hv).
  rewrite H in *. done.
Qed.

(** Further inputs where the commit is missed: a successful analysis
    for a client that has no session stores nothing and creates no
    session; so does one whose client disconnects while the collaborator
    is working. *)
Lemma C2_counterexample :
  (let request := SceneAnalysisRequest.mk "QUJD" "client9" in
   let out := analyze_scene red_chair request world0 in
   snd out = Ok (SceneAnalysisResponse.mk "a red chair" 1 placeholder_confidence) /\
   client_sessions (manager (fst out)) !! "client9" = None /\
   get_scene_description (manager (fst out)) "client9" = "") /\
  (let request := SceneAnalysisRequest.mk "QUJD" "client1" in
   let s := run (boot world0)
              [WebSocketOpens "client1"; PostAnalyzeScene request;
               WebSocketReceives 0 (Raise WebSocketDisconnect);
               CollaboratorReturns 0 (Ok "a red chair")] in
   replies s = [(0%nat, SceneReply (Ok (SceneAnalysisResponse.mk "a red chair" 1
                                          placeholder_confidence)))] /\
   client_sessions (manager (world s)) !! "client1" = None /\
   get_scene_description (manager (world s)) "client1" = "").
Proof. vm_compute. repeat split; reflexivity. Qed.

(** What the guard before the store in [analyze_scene] does, in general:
    when the collaborator call returns and the handler succeeds, the
    description is stored if and only if the client has a session at that
    moment (a realtime connection is registered): then the description is
    overwritten and the history kept.  Without a session nothing is stored
    and none is created.  The registry of channels is never touched. *)
Lemma analyze_scene_commit_needs_session (w w' : World) (request : SceneAnalysisRequest.t)
    (response : result string) (r : SceneAnalysisResponse.t)
    (Hok : analyze_scene_resume request response w = (w', Ok r)) :
  let c := SceneAnalysisRequest.client_id request in
  active_connections (manager w') = active_connections (manager w) /\
  match client_sessions (manager w) !! c with
  | Some session =>
      client_sessions (manager w') =
        <[c := {| last_scene_description := SceneAnalysisResponse.description r;
                  conversation_history := conversation_history session |}]>
          (client_sessions (manager w)) /\
      get_scene_description (manager w') c = SceneAnalysisResponse.description r
  | None =>
      client_sessions (manager w') = client_sessions (manager w) /\
      client_sessions (manager w') !! c = None /\
      get_scene_description (manager w') c = ""
  end.
Proof.
  intros c. destruct response as [text|e].
  - rewrite analyze_scene_resume_text in Hok. simplify_eq. simpl.
    fold c. unfold get_scene_description.
    destruct (client_sessions (manager w) !! c) eqn:E; simpl.
    + split; [done|]. split; [done|]. by rewrite lookup_insert_eq.
    + by rewrite E.
  - destruct (analyze_scene_resume_raise request e w) as (w1 & e1 & H1 & _).
    congruence.
Qed.

Lemma analyze_scene_commit_needs_session_example :
  get_scene_description
    (manager (fst (analyze_scene_resume (SceneAnalysisRequest.mk "QUJD" "client1")
                     (Ok "a red chair") world1))) "client1" = "a red chair" /\
  get_scene_description
    (manager (fst (analyze_scene_resume (SceneAnalysisRequest.mk "QUJD" "client9")
                     (Ok "a red chair") world1))) "client9" = "".
Proof.
  split.
  - pose proof (analyze_scene_commit_needs_session world1 _
      (SceneAnalysisRequest.mk "QUJD" "client1") (Ok "a red chair") _ eq_refl) as [_ H].
    apply H.
  - pose proof (analyze_scene_commit_needs_session world1 _
      (SceneAnalysisRequest.mk "QUJD" "client9") (Ok "a red chair") _ eq_refl) as [_ H].
    apply H.
Defined.

(** C2 (code bug): the flow of the repository's own backend test, a scene
    analysis followed by a question for the same client over HTTP alone,
    with no realtime connection.  The analysis succeeds and returns its
    description, but the store is skipped because the client has no
    session; no session is created, and the question that the test expects
    to be answered with that scene context is refused with the 400 error. *)
Theorem C2_http_only_analysis_is_lost :
  let scene := SceneAnalysisRequest.mk "QUJD" "test_client_1" in
  let question :=
    QuestionRequest.mk "What colors do you see in the image?" "test_client_1" in
  let s := run (boot world0)
             [PostAnalyzeScene scene;
              CollaboratorReturns 0 (Ok "a red chair on a wooden floor");
              PostAskQuestion question] in
  replies s =
    [(0%nat, SceneReply (Ok (SceneAnalysisResponse.mk "a red chair on a wooden floor" 1
                               placeholder_confidence)));
     (1%nat, QuestionReply (Raise no_context))] /\
  client_sessions (manager (world s)) !! "test_client_1" = None /\
  get_scene_description (manager (world s)) "test_client_1" = "".
Proof. vm_compute. repeat split; reflexivity. Qed.

(** C9 (as stated, refuted): the collaborator's text ends with a newline;
    the description returned is that text without it. *)
Lemma C9_counterexample :
  let text := String.append "a red chair" (String (chr 10) "") in
  let request := SceneAnalysisRequest.mk "QUJD" "client1" in
  exists r,
    snd (analyze_scene (fun _ _ => Ok text) request world1) = Ok r /\
    SceneAnalysisResponse.description r = "a red chair" /\
    SceneAnalysisResponse.description r <> text.
Proof.
  eexists. split; [vm_compute; reflexivity|]. split; [reflexivity|]. discriminate.
Qed.

(** C9 (amended): a successful [analyze_scene] made exactly one
    collaborator call, which returned a text; the description of the
    result is that text with leading and trailing whitespace stripped,
    and the confidence is the constant 0.85. *)
Theorem C9_description_and_confidence
    (llm : LlmChat -> UserMessage -> result string)
    (request : SceneAnalysisRequest.t) (w w' : World)
    (r : SceneAnalysisResponse.t)
    (Hok : analyze_scene llm request w = (w', Ok r)) :
  exists w1 chat message text,
    analyze_scene_call request w = (w1, Ok (chat, message)) /\
    llm chat message = Ok text /\
    SceneAnalysisResponse.description r = strip text /\
    SceneAnalysisResponse.confidence r = placeholder_confidence /\
    placeholder_confidence = Qmake 85 100.
Proof.
  unfold analyze_scene, bind in Hok.
  destruct (analyze_scene_call request w) as [w1 [[chat message]|e]] eqn:Ecall;
    [|done].
  simpl in Hok. destruct (llm chat message) as [text|e] eqn:Ellm.
  - rewrite analyze_scene_resume_text in Hok. simplify_eq.
    by exists w1, chat, message, text.
  - destruct (analyze_scene_resume_raise request e w1) as (w2 & e2 & H2 & _).
    congruence.
Qed.

Lemma C9_description_and_confidence_witness :
  exists r,
    snd (analyze_scene red_chair (SceneAnalysisRequest.mk "QUJD" "client1") world1) = Ok r /\
    SceneAnalysisResponse.description r = "a red chair" /\
    SceneAnalysisResponse.confidence r = Qmake 85 100.
Proof.
  eexists. split; [vm_compute; reflexivity|].
  destruct (C9_description_and_confidence red_chair
              (SceneAnalysisRequest.mk "QUJD" "client1") world1 _ _ eq_refl)
    as (w1 & chat & message & text & _ & Hllm & Hd & Hc & _).
  split; [reflexivity | exact Hc].
Defined.

(** C5 (as stated, refuted): the bytes [not-an-image], sent base64-encoded
    as the API takes them, pass the only check there is.  What happens
    next is up to the collaborator: when it raises, the handler fails with
    the 500 error, not the 400 one; when it answers, the handler succeeds
    and the stored description changes. *)
Lemma C5_counterexample :
  let request := SceneAnalysisRequest.mk "bm90LWFuLWltYWdl" "client1" in
  b64decode "bm90LWFuLWltYWdl" = Ok (list_byte_of_string "not-an-image") /\
  snd (analyze_scene (fun _ _ => Raise (Exception "unsupported image")) request world1) =
    Raise (HTTPException 500 "Scene analysis failed: unsupported image") /\
  get_scene_description (manager world1) "client1" = "" /\
  get_scene_description
    (manager (fst (analyze_scene red_chair request world1))) "client1" = "a red chair".
Proof. vm_compute. repeat split; reflexivity. Qed.

(** With the vision backend initialised, a payload on which [b64decode]
    raises makes [analyze_scene] fail with the 400 error before any
    collaborator call, and leaves the whole state as it was. *)
Lemma analyze_scene_rejects_undecodable (w : World) (request : SceneAnalysisRequest.t)
    (chat : LlmChat) (part : string) (e : exn)
    (Hchat : vision_chat w = Some chat)
    (Hpart : payload (SceneAnalysisRequest.image_data request) = Some part)
    (Hbad : b64decode part = Raise e) :
  let err := HTTPException 400 ("Invalid image data: " ++ exn_str e) in
  analyze_scene_call request w = (w, Raise err) /\
  (forall llm, analyze_scene llm request w = (w, Raise err)) /\
  (forall s, world s = w ->
     step s (PostAnalyzeScene request) = reply_now s w (SceneReply (Raise err))).
Proof.
  intros err.
  assert (Hcall : analyze_scene_call request w = (w, Raise err)).
  { unfold analyze_scene_call, http_errors, try_except, bind, require_vision_chat, lift.
    rewrite Hchat, Hpart, Hbad. done. }
  split; [exact Hcall|]. split.
  - intros llm. unfold analyze_scene, bind. by rewrite Hcall.
  - intros s <-. simpl. by rewrite Hcall.
Qed.

Lemma analyze_scene_rejects_undecodable_example :
  analyze_scene_call (SceneAnalysisRequest.mk "not-an-image" "clientX") world2 =
    (world2, Raise (HTTPException 400 "Invalid image data: Incorrect padding")).
Proof.
  apply (analyze_scene_rejects_undecodable world2
           (SceneAnalysisRequest.mk "not-an-image" "clientX")
           startup_vision_chat "not-an-image" (Exception "Incorrect padding"));
    reflexivity.
Defined.

(** ** Question answering *)

Lemma ask_question_resume_text request scene_context text w :
  ask_question_resume request scene_context (Ok text) w =
  match client_sessions (manager w) !! QuestionRequest.client_id request with
  | Some session =>
      ({| vision_chat := vision_chat w;
          manager :=
            {| active_connections := active_connections (manager w);
               client_sessions :=
                 <[QuestionRequest.client_id request :=
                     {| last_scene_description := last_scene_description session;
                        conversation_history :=
                          (conversation_history session ++
                           [HistoryEntry.mk (QuestionRequest.question request)
                              (strip text) scene_context
                              (utcnow_source w (utcnow_calls w))])%list |}]>
                   (client_sessions (manager w)) |};
          websockets := websockets w; log := log w;
          utcnow_source := utcnow_source w;
          utcnow_calls := S (S (utcnow_calls w)) |},
       Ok (QuestionResponse.mk (strip text) scene_context
             (utcnow_source w (S (utcnow_calls w)))))
  | None =>
      ({| vision_chat := vision_chat w; manager := manager w;
          websockets := websockets w; log := log w;
          utcnow_source := utcnow_source w; utcnow_calls := S (utcnow_calls w) |},
       Ok (QuestionResponse.mk (strip text) scene_context
             (utcnow_source w (utcnow_calls w))))
  end.
Proof. unfold_m; simpl. by destruct (client_sessions (manager w) !! _). Qed.

Lemma ask_question_resume_raise request scene_context e w :
  exists w' e', ask_question_resume request scene_context (Raise e) w = (w', Raise e') /\
                manager w' = manager w.
Proof. unfold_m; simpl. destruct e; eauto. Qed.

(** A started question read a non-empty description from the session. *)
Lemma ask_question_call_ok request w w1 scene_context call :
  ask_question_call request w = (w1, Ok (scene_context, call)) ->
  manager w1 = manager w /\
  scene_context = get_scene_description (manager w) (QuestionRequest.client_id request) /\
  scene_context <> "".
Proof.
  intros H. pose proof (ask_question_call_manager request w) as (Hm & _).
  rewrite H in Hm. split; [done|]. clear Hm. revert H.
  unfold ask_question_call, http_errors, try_except, bind, require_vision_chat,
    get_manager, utcnow, ret, raise.
  destruct (vision_chat w); simpl; [|done].
  destruct (String.eqb _ "") eqn:E; simpl; [done|].
  intros [= <- <- <-]. split; [done|]. by apply String.eqb_neq.
Qed.

(** When nothing else runs while it awaits its collaborator, a successful
    [ask_question] found a session with a non-empty description; it
    returns that description as scene context together with the answer,
    and appends exactly one entry, made of the question, the answer, that
    description and a timestamp, to the history of the session. *)
Lemma ask_question_alone_appends_history
    (llm : LlmChat -> UserMessage -> result string)
    (request : QuestionRequest.t) (w w' : World) (r : QuestionResponse.t)
    (Hok : ask_question llm request w = (w', Ok r)) :
  let c := QuestionRequest.client_id request in
  exists session t,
    client_sessions (manager w) !! c = Some session /\
    last_scene_description session <> "" /\
    QuestionResponse.scene_context r = last_scene_description session /\
    QuestionResponse.scene_context r = get_scene_description (manager w) c /\
    client_sessions (manager w') =
      <[c := {| last_scene_description := last_scene_description session;
                conversation_history :=
                  (conversation_history session ++
                   [HistoryEntry.mk (QuestionRequest.question request)
                      (QuestionResponse.answer r)
                      (QuestionResponse.scene_context r) t])%list |}]>
        (client_sessions (manager w)) /\
    active_connections (manager w') = active_connections (manager w).
Proof.
  intros c. unfold ask_question, bind in Hok.
  destruct (ask_question_call request w) as [w1 [[ctx [chat message]]|e]] eqn:Ecall;
    [|done].
  apply ask_question_call_ok in Ecall as (Hm & Hctx & Hne).
  simpl in Hok. destruct (llm chat message) as [text|e].
  - rewrite ask_question_resume_text in Hok. rewrite Hm in Hok. fold c in Hok, Hctx.
    unfold get_scene_description in Hctx.
    destruct (client_sessions (manager w) !! c) as [session|] eqn:E; [|done].
    simplify_eq. simpl. exists session. eexists.
    unfold get_scene_description. rewrite E. done.
  - destruct (ask_question_resume_raise request ctx e w1) as (w2 & e2 & H2 & _).
    congruence.
Qed.

Lemma ask_question_alone_appends_history_example :
  let request := QuestionRequest.mk "what color?" "client1" in
  let out := ask_question (fun _ _ => Ok "red") request world2 in
  snd out = Ok (QuestionResponse.mk "red" "a red chair" 4) /\
  exists session t,
    client_sessions (manager world2) !! "client1" = Some session /\
    client_sessions (manager (fst out)) !! "client1" =
      Some {| last_scene_description := "a red chair";
              conversation_history :=
                (conversation_history session ++
                 [HistoryEntry.mk "what color?" "red" "a red chair" t])%list |}.
Proof.
  intros request out.
  assert (H : ask_question (fun _ _ => Ok "red") request world2 =
              (fst out, Ok (QuestionResponse.mk "red" "a red chair" 4)))
    by reflexivity.
  split; [reflexivity|].
  destruct (ask_question_alone_appends_history _ request world2 _ _ H)
    as (session & t & Hs & _ & Hctx & _ & Hh & _).
  exists session, t. split; [exact Hs|].
  rewrite Hh, lookup_insert_eq. simpl in *. by rewrite <- Hctx.
Defined.

(** ** Ordering of scene analyses of one client *)

Lemma request_step_description s ev c :
  request_event ev ->
  is_Some (client_sessions (manager (world s)) !! c) ->
  is_Some (client_sessions (manager (world (step s ev))) !! c) /\
  get_scene_description (manager (world (step s ev))) c =
    last_completed s [ev] c (get_scene_description (manager (world s)) c).
Proof.
  intros Hev Hc. destruct ev as [r|r|id response| | |]; try done; simpl.
  - pose proof (analyze_scene_call_manager r (world s)) as (Hm & _).
    destruct (analyze_scene_call r (world s)) as [w [[chat msg]|e]];
      simpl in *; by rewrite Hm.
  - pose proof (ask_question_call_manager r (world s)) as (Hm & _).
    destruct (ask_question_call r (world s)) as [w [[ctx [chat msg]]|e]];
      simpl in *; by rewrite Hm.
  - destruct (awaiting s !! id) as [[r chat msg|r ctx chat msg]|] eqn:Eid.
    + destruct response as [text|e].
      * rewrite analyze_scene_resume_text. simpl.
        unfold get_scene_description.
        case_bool_decide as Heq.
        -- rewrite Heq. destruct Hc as [session Hc]. rewrite Hc. simpl.
           rewrite lookup_insert_eq. eauto.
        -- destruct (client_sessions (manager (world s))
                       !! SceneAnalysisRequest.client_id r) eqn:E; [|done].
           simpl. by rewrite lookup_insert_ne.
      * destruct (analyze_scene_resume_raise r e (world s)) as (w' & e' & H' & Hm).
        rewrite H'. simpl. by rewrite Hm.
    + destruct response as [text|e].
      * rewrite ask_question_resume_text. unfold get_scene_description.
        destruct (client_sessions (manager (world s)) !! QuestionRequest.client_id r)
          as [session|] eqn:E; simpl; [|done].
        destruct (decide (QuestionRequest.client_id r = c)) as [<-|Hne].
        -- rewrite lookup_insert_eq, E. eauto.
        -- by rewrite lookup_insert_ne.
      * destruct (ask_question_resume_raise r ctx e (world s)) as (w' & e' & H' & Hm).
        rewrite H'. simpl. by rewrite Hm.
    + by destruct response.
Qed.

(** C1 (as stated, refuted): two analyses for client ["A"] are submitted
    back to back; the collaborator call of the second returns first.  Both
    succeed, and the description left is the one of the first call. *)
Lemma C1_counterexample :
  let first := SceneAnalysisRequest.mk "QUJD" "A" in
  let second := SceneAnalysisRequest.mk "REVG" "A" in
  let s := run (boot world0)
             [WebSocketOpens "A"; PostAnalyzeScene first; PostAnalyzeScene second;
              CollaboratorReturns 1 (Ok "scene of image B");
              CollaboratorReturns 0 (Ok "scene of image A")] in
  replies s =
    [(1%nat, SceneReply (Ok (SceneAnalysisResponse.mk "scene of image B" 2
                               placeholder_confidence)));
     (0%nat, SceneReply (Ok (SceneAnalysisResponse.mk "scene of image A" 3
                               placeholder_confidence)))] /\
  awaiting s = ∅ /\
  get_scene_description (manager (world s)) "A" = "scene of image A" /\
  get_scene_description (manager (world s)) "A" <> "scene of image B".
Proof.
  vm_compute. split; [reflexivity|]. split; [reflexivity|].
  split; [reflexivity|]. discriminate.
Qed.

(** C1 (amended): requests of one client are not put in submission
    order; each analysis writes its description when its own collaborator
    call returns.  For a client that has a session, and as long as no
    realtime event intervenes, the description read after any sequence of
    submissions and completions is exactly the one produced by the
    analysis of that client that completed last (the initial one if none
    completed), never anything else. *)
Theorem C1_last_completed_wins (evs : list Event) :
  forall (s : Server) (client_id : string),
    Forall request_event evs ->
    is_Some (client_sessions (manager (world s)) !! client_id) ->
    get_scene_description (manager (world (run s evs))) client_id =
      last_completed s evs client_id
        (get_scene_description (manager (world s)) client_id).
Proof.
  induction evs as [|ev evs IH]; intros s c Hevs Hc; [done|].
  inversion Hevs as [|? ? Hev Hrest]; subst.
  destruct (request_step_description s ev c Hev Hc) as [Hc' Hd].
  change (run s (ev :: evs)) with (run (step s ev) evs).
  rewrite (IH (step s ev) c Hrest Hc'). rewrite Hd. done.
Qed.

Lemma C1_last_completed_wins_witness :
  let first := SceneAnalysisRequest.mk "QUJD" "A" in
  let second := SceneAnalysisRequest.mk "REVG" "A" in
  let s := step (boot world0) (WebSocketOpens "A") in
  get_scene_description
    (manager (world (run s [PostAnalyzeScene first; PostAnalyzeScene second;
                            CollaboratorReturns 0 (Ok "scene of image A");
                            CollaboratorReturns 1 (Ok "scene of image B")]))) "A"
    = "scene of image B" /\
  get_scene_description
    (manager (world (run s [PostAnalyzeScene first; PostAnalyzeScene second;
                            CollaboratorReturns 1 (Ok "scene of image B");
                            CollaboratorReturns 0 (Ok "scene of image A")]))) "A"
    = "scene of image A".
Proof.
  intros first second s.
  assert (Hs : is_Some (client_sessions (manager (world s)) !! "A"))
    by (exists new_session; reflexivity).
  split.
  - rewrite (C1_last_completed_wins _ s "A"); [reflexivity | | exact Hs].
    repeat constructor.
  - rewrite (C1_last_completed_wins _ s "A"); [reflexivity | | exact Hs].
    repeat constructor.
Defined.

(** ** The payload of a data URL *)

Lemma split_nonempty sep s : split sep s <> [].
Proof. destruct s as [|c s]; simpl; [done|]. by repeat case_match. Qed.

Lemma split_contains sep s :
  contains sep s = true -> exists a b rest, split sep s = a :: b :: rest.
Proof.
  induction s as [|c s IH]; simpl; [done|].
  destruct (Ascii.eqb c sep) eqn:E.
  - intros _. pose proof (split_nonempty sep s).
    destruct (split sep s) as [|b rest] eqn:Es; [done|]. eauto.
  - intros H. destruct (IH H) as (a & b & rest & ->). eauto.
Qed.

Lemma split_no_sep sep s : contains sep s = false -> split sep s = [s].
Proof.
  induction s as [|c s IH]; simpl; [done|].
  destruct (Ascii.eqb c sep); [done|]. intros H. by rewrite IH.
Qed.

Lemma split_app sep p r :
  contains sep p = false ->
  split sep (p ++ String sep r) = p :: split sep r.
Proof.
  induction p as [|c p IH]; simpl.
  - intros _. by rewrite Ascii.eqb_refl.
  - destruct (Ascii.eqb c sep); [done|]. intros H. by rewrite IH.
Qed.

Lemma contains_app sep p r :
  contains sep (p ++ String sep r) = true.
Proof.
  induction p as [|c p IH]; simpl; [by rewrite Ascii.eqb_refl|].
  by destruct (Ascii.eqb c sep).
Qed.

Lemma payload_some image_data : exists part, payload image_data = Some part.
Proof.
  unfold payload. destruct (contains "," image_data) eqn:E; [|eauto].
  destruct (split_contains _ _ E) as (a & b & rest & ->). eauto.
Qed.

(** X1: the [IndexError] of [image_data.split(',')[1]] cannot happen: the
    index is only taken when a comma is there, so there always is a text to
    decode, and without a comma it is the whole [image_data]. *)
Theorem X1_payload_total (image_data : string) :
  (exists part, payload image_data = Some part) /\
  (contains "," image_data = false -> payload image_data = Some image_data).
Proof.
  split; [apply payload_some|].
  unfold payload. by intros ->.
Qed.

(** X2: for a data URL, a header without comma followed by a comma, the
    text that is decoded is what stands between the first comma and the
    next one (or the end): anything after a second comma is ignored. *)
Theorem X2_payload_data_url (header data rest : string)
    (Hheader : contains "," header = false)
    (Hdata : contains "," data = false) :
  payload (header ++ "," ++ data) = Some data /\
  payload (header ++ "," ++ data ++ "," ++ rest) = Some data.
Proof.
  unfold payload.
  change ("," ++ data ++ "," ++ rest) with (String ","%char (data ++ String ","%char rest)).
  change ("," ++ data) with (String ","%char data).
  rewrite !contains_app, !split_app by done.
  rewrite split_no_sep by done. done.
Qed.

Lemma X2_payload_data_url_witness :
  payload "data:image/jpeg;base64,QUJD" = Some "QUJD" /\
  payload "data:image/jpeg;base64,QUJD,ignored" = Some "QUJD".
Proof.
  apply (X2_payload_data_url "data:image/jpeg;base64" "QUJD" "ignored");
    reflexivity.
Defined.

(** ** Stripping *)

Lemma lstrip_no_leading s : starts_with_space (lstrip s) = false.
Proof.
  induction s as [|c s IH]; simpl; [done|].
  destruct (isspace c) eqn:E; [done|]. simpl. done.
Qed.

Lemma lstrip_id s : starts_with_space s = false -> lstrip s = s.
Proof. destruct s as [|c s]; simpl; [done|]. by intros ->. Qed.

Lemma rstrip_no_leading s :
  starts_with_space s = false -> starts_with_space (rstrip s) = false.
Proof.
  destruct s as [|c s]; simpl; [done|]. intros H.
  destruct (rstrip s); simpl; by rewrite ?H.
Qed.

Lemma rstrip_no_trailing s : ends_with_space (rstrip s) = false.
Proof.
  induction s as [|c s IH]; simpl; [done|].
  destruct (rstrip s) as [|c' r] eqn:E.
  - destruct (isspace c) eqn:Ec; simpl; done.
  - done.
Qed.

Lemma rstrip_id s : ends_with_space s = false -> rstrip s = s.
Proof.
  induction s as [|c s IH]; [done|].
  destruct s as [|c' s'].
  - simpl. by intros ->.
  - intros H. change (ends_with_space (String c' s') = false) in H.
    specialize (IH H). simpl in *. by rewrite IH.
Qed.

Lemma strip_no_outer_space s :
  starts_with_space (strip s) = false /\ ends_with_space (strip s) = false.
Proof.
  unfold strip. split.
  - apply rstrip_no_leading, lstrip_no_leading.
  - apply rstrip_no_trailing.
Qed.

Lemma strip_idempotent s : strip (strip s) = strip s.
Proof.
  destruct (strip_no_outer_space s) as [H1 H2].
  unfold strip at 1. by rewrite lstrip_id, rstrip_id.
Qed.

(** X3: whatever the collaborator returns, the description that a
    successful [analyze_scene] returns and stores neither begins nor ends
    with whitespace, and stripping it again changes nothing. *)
Theorem X3_description_is_stripped (request : SceneAnalysisRequest.t)
    (response : result string) (w w' : World) (r : SceneAnalysisResponse.t)
    (Hok : analyze_scene_resume request response w = (w', Ok r)) :
  let d := SceneAnalysisResponse.description r in
  starts_with_space d = false /\ ends_with_space d = false /\ strip d = d /\
  (forall session,
     client_sessions (manager w') !! SceneAnalysisRequest.client_id request
       = Some session ->
     last_scene_description session = d).
Proof.
  destruct response as [text|e].
  - rewrite analyze_scene_resume_text in Hok. simplify_eq. simpl.
    destruct (strip_no_outer_space text) as [H1 H2].
    split; [done|]. split; [done|]. split; [apply strip_idempotent|].
    intros session.
    destruct (client_sessions (manager w) !! _) eqn:E; simpl.
    + rewrite lookup_insert_eq. by intros [= <-].
    + by rewrite E.
  - destruct (analyze_scene_resume_raise request e w) as (w1 & e1 & H1 & _).
    congruence.
Qed.

Lemma X3_description_is_stripped_witness :
  exists r,
    snd (analyze_scene_resume (SceneAnalysisRequest.mk "QUJD" "client1")
           (Ok "  a red chair  ") world1) = Ok r /\
    strip (SceneAnalysisResponse.description r) = SceneAnalysisResponse.description r.
Proof.
  eexists. split; [reflexivity|].
  apply (X3_description_is_stripped (SceneAnalysisRequest.mk "QUJD" "client1")
           (Ok "  a red chair  ") world1 _ _ eq_refl).
Defined.

(** ** Scene analysis followed by a question *)

Lemma ask_question_call_grounded request w chat :
  vision_chat w = Some chat ->
  get_scene_description (manager w) (QuestionRequest.client_id request) <> "" ->
  let ctx := get_scene_description (manager w) (QuestionRequest.client_id request) in
  exists w1 qa_chat,
    ask_question_call request w =
      (w1, Ok (ctx, (qa_chat,
                     {| text := qa_prompt ctx (QuestionRequest.question request);
                        file_contents := [] |}))) /\
    system_message qa_chat = qa_system_message ctx /\
    manager w1 = manager w.
Proof.
  intros Hv Hne ctx.
  unfold ask_question_call, http_errors, try_except, bind, require_vision_chat,
    get_manager, utcnow, ret, raise.
  rewrite Hv. simpl. fold ctx.
  destruct (String.eqb ctx "") eqn:E; [by apply String.eqb_eq in E|].
  simpl. eauto.
Qed.

(** X4: once an analysis has succeeded for a client that has a session,
    and its description is not empty, the next question of that client is
    put to the collaborator with exactly that description as grounding:
    it is the scene context, it is quoted in the system message and in the
    prompt, and no image is attached. *)
Theorem X4_question_grounded_on_analysis
    (scene : SceneAnalysisRequest.t) (question : QuestionRequest.t)
    (text : string) (w : World) (chat : LlmChat)
    (Hclient : QuestionRequest.client_id question = SceneAnalysisRequest.client_id scene)
    (Hchat : vision_chat w = Some chat)
    (Hsession : is_Some (client_sessions (manager w)
                           !! SceneAnalysisRequest.client_id scene))
    (Hne : strip text <> "") :
  let w1 := fst (analyze_scene_resume scene (Ok text) w) in
  exists w2 qa_chat,
    ask_question_call question w1 =
      (w2, Ok (strip text,
               (qa_chat,
                {| text := qa_prompt (strip text) (QuestionRequest.question question);
                   file_contents := [] |}))) /\
    system_message qa_chat = qa_system_message (strip text).
Proof.
  intros w1.
  assert (Hd : get_scene_description (manager w1)
                 (QuestionRequest.client_id question) = strip text).
  { subst w1. rewrite analyze_scene_resume_text, Hclient. simpl.
    unfold get_scene_description. destruct Hsession as [session ->]. simpl.
    by rewrite lookup_insert_eq. }
  assert (Hv : vision_chat w1 = Some chat)
    by (subst w1; by rewrite analyze_scene_resume_text).
  destruct (ask_question_call_grounded question w1 chat Hv) as (w2 & qa & H & Hs & _).
  { by rewrite Hd. }
  rewrite Hd in H, Hs. eauto.
Qed.

Lemma X4_question_grounded_on_analysis_witness :
  exists w2 qa_chat,
    ask_question_call (QuestionRequest.mk "what color?" "client1")
      (fst (analyze_scene_resume (SceneAnalysisRequest.mk "QUJD" "client1")
              (Ok "a red chair") world1)) =
      (w2, Ok ("a red chair",
               (qa_chat,
                {| text := "Based on what you described about the scene ('a red chair'), please answer this question: what color?";
                   file_contents := [] |}))).
Proof.
  destruct (X4_question_grounded_on_analysis
              (SceneAnalysisRequest.mk "QUJD" "client1")
              (QuestionRequest.mk "what color?" "client1")
              "a red chair" world1 startup_vision_chat)
    as (w2 & qa & H & _);
    [reflexivity | reflexivity | by eexists | discriminate |].
  exists w2, qa. exact H.
Defined.

Lemma ask_question_call_refused request w chat :
  vision_chat w = Some chat ->
  get_scene_description (manager w) (QuestionRequest.client_id request) = "" ->
  ask_question_call request w = (w, Raise no_context).
Proof.
  intros Hv Hd.
  unfold ask_question_call, http_errors, try_except, bind, require_vision_chat,
    get_manager.
  rewrite Hv. simpl. by rewrite Hd.
Qed.

(** X5: a collaborator answer made of whitespace only makes
    [analyze_scene] succeed with an empty description; for a client with a
    session that empty text is stored, and the client's next question is
    refused with the 400 "no scene" error as if no analysis had been made. *)
Theorem X5_blank_description_is_no_context
    (scene : SceneAnalysisRequest.t) (question : QuestionRequest.t)
    (text : string) (w : World) (chat : LlmChat)
    (Hclient : QuestionRequest.client_id question = SceneAnalysisRequest.client_id scene)
    (Hchat : vision_chat w = Some chat)
    (Hblank : strip text = "") :
  let out := analyze_scene_resume scene (Ok text) w in
  (exists t, snd out = Ok (SceneAnalysisResponse.mk "" t placeholder_confidence)) /\
  ask_question_call question (fst out) = (fst out, Raise no_context).
Proof.
  intros out. subst out. rewrite analyze_scene_resume_text, Hblank. simpl.
  split; [eauto|].
  apply (ask_question_call_refused _ _ chat); [done|]. simpl.
  unfold get_scene_description. rewrite Hclient.
  destruct (client_sessions (manager w) !! _) eqn:E; simpl.
  - by rewrite lookup_insert_eq.
  - by rewrite E.
Qed.

Lemma X5_blank_description_is_no_context_witness :
  let out := analyze_scene_resume (SceneAnalysisRequest.mk "QUJD" "client1")
               (Ok "   ") world1 in
  ask_question_call (QuestionRequest.mk "what color?" "client1") (fst out) =
    (fst out, Raise no_context).
Proof.
  apply (X5_blank_description_is_no_context
           (SceneAnalysisRequest.mk "QUJD" "client1")
           (QuestionRequest.mk "what color?" "client1")
           "   " world1 startup_vision_chat); reflexivity.
Defined.

(** ** What the request handlers leave alone *)

Lemma analyze_scene_resume_frame request response w :
  let w' := fst (analyze_scene_resume request response w) in
  active_connections (manager w') = active_connections (manager w) /\
  websockets w' = websockets w /\
  vision_chat w' = vision_chat w /\
  (forall c, c <> SceneAnalysisRequest.client_id request ->
     client_sessions (manager w') !! c = client_sessions (manager w) !! c) /\
  conversation_history <$>
    client_sessions (manager w') !! SceneAnalysisRequest.client_id request =
  conversation_history <$>
    client_sessions (manager w) !! SceneAnalysisRequest.client_id request.
Proof.
  destruct response as [text|e].
  - rewrite analyze_scene_resume_text. simpl.
    destruct (client_sessions (manager w) !! SceneAnalysisRequest.client_id request)
      eqn:E; simpl.
    + repeat split; try done.
      * intros c' Hc'. by rewrite lookup_insert_ne.
      * by rewrite lookup_insert_eq.
    + by rewrite E.
  - unfold_m; simpl. by destruct e.
Qed.

(** X6: whatever its outcome, [analyze_scene] changes nothing but the
    description of its own client: the registry of channels, the channels,
    the sessions of all other clients and the history of its own client
    are as before, and no session is created or removed. *)
Theorem X6_analyze_scene_frame (llm : LlmChat -> UserMessage -> result string)
    (request : SceneAnalysisRequest.t) (w : World) :
  let w' := fst (analyze_scene llm request w) in
  let c := SceneAnalysisRequest.client_id request in
  active_connections (manager w') = active_connections (manager w) /\
  websockets w' = websockets w /\
  dom (client_sessions (manager w')) = dom (client_sessions (manager w)) /\
  (forall c', c' <> c ->
     client_sessions (manager w') !! c' = client_sessions (manager w) !! c') /\
  conversation_history <$> client_sessions (manager w') !! c =
    conversation_history <$> client_sessions (manager w) !! c.
Proof.
  intros w' c. subst w'. unfold analyze_scene, bind.
  pose proof (analyze_scene_call_manager request w) as (Hm & Hs & _).
  destruct (analyze_scene_call request w) as [w1 [[chat message]|e]]; simpl in *.
  - pose proof (analyze_scene_resume_frame request (llm chat message) w1)
      as (Ha & Hw & _ & Ho & Hh).
    pose proof (analyze_scene_resume_dom request (llm chat message) w1) as [_ Hd].
    rewrite Hm in *. rewrite Hs in *. done.
  - by rewrite Hm, Hs.
Qed.

Lemma ask_question_resume_frame request ctx response w :
  let w' := fst (ask_question_resume request ctx response w) in
  active_connections (manager w') = active_connections (manager w) /\
  websockets w' = websockets w /\
  vision_chat w' = vision_chat w /\
  (forall c, c <> QuestionRequest.client_id request ->
     client_sessions (manager w') !! c = client_sessions (manager w) !! c) /\
  (forall c, get_scene_description (manager w') c =
             get_scene_description (manager w) c).
Proof.
  destruct response as [text|e].
  - rewrite ask_question_resume_text.
    destruct (client_sessions (manager w) !! QuestionRequest.client_id request)
      eqn:E; simpl; [|done].
    repeat split; try done.
    + intros c' Hc'. by rewrite lookup_insert_ne.
    + intros c'. unfold get_scene_description. simpl.
      destruct (decide (c' = QuestionRequest.client_id request)) as [->|Hc'].
      * by rewrite lookup_insert_eq, E.
      * by rewrite lookup_insert_ne.
  - unfold_m; simpl. by destruct e.
Qed.

(** X7: whatever its outcome, [ask_question] never changes a scene
    description, of its own client or of any other; it leaves the registry,
    the channels and the sessions of the other clients as they were, and
    creates or removes no session. *)
Theorem X7_ask_question_frame (llm : LlmChat -> UserMessage -> result string)
    (request : QuestionRequest.t) (w : World) :
  let w' := fst (ask_question llm request w) in
  (forall c, get_scene_description (manager w') c =
             get_scene_description (manager w) c) /\
  active_connections (manager w') = active_connections (manager w) /\
  websockets w' = websockets w /\
  dom (client_sessions (manager w')) = dom (client_sessions (manager w)) /\
  (forall c, c <> QuestionRequest.client_id request ->
     client_sessions (manager w') !! c = client_sessions (manager w) !! c).
Proof.
  intros w'. subst w'. unfold ask_question, bind.
  pose proof (ask_question_call_manager request w) as (Hm & Hs & _).
  destruct (ask_question_call request w) as [w1 [[ctx [chat message]]|e]]; simpl in *.
  - pose proof (ask_question_resume_frame request ctx (llm chat message) w1)
      as (Ha & Hw & _ & Ho & Hd).
    pose proof (ask_question_resume_dom request ctx (llm chat message) w1) as [_ Hdom].
    rewrite Hm in *. rewrite Hs in *. done.
  - by rewrite Hm, Hs.
Qed.

(** ** Failures of the request handlers *)

Lemma analyze_scene_call_raises request w w1 e :
  analyze_scene_call request w = (w1, Raise e) ->
  w1 = w /\
  ((vision_chat w = None /\ e = backend_unavailable) \/
   (exists part e0,
      payload (SceneAnalysisRequest.image_data request) = Some part /\
      b64decode part = Raise e0 /\
      e = HTTPException 400 ("Invalid image data: " ++ exn_str e0))).
Proof.
  unfold analyze_scene_call, http_errors, try_except, bind, require_vision_chat,
    lift, raise, utcnow, ret.
  destruct (vision_chat w) eqn:Ev; simpl; [|intros [= <- <-]; eauto].
  destruct (payload_some (SceneAnalysisRequest.image_data request))
    as [part Hp]. rewrite Hp.
  destruct (b64decode part) as [data|e0] eqn:Ed; simpl; [done|].
  intros [= <- <-]. split; [done|]. right. eauto.
Qed.

Lemma analyze_scene_call_log request w :
  log (fst (analyze_scene_call request w)) = log w.
Proof. crunch. Qed.

Lemma ask_question_call_log request w :
  log (fst (ask_question_call request w)) = log w.
Proof. crunch. Qed.

Lemma http_errors_raise {A} logged detail e0 w :
  @http_errors A logged detail (lift (Raise e0)) w =
  match e0 with
  | HTTPException _ _ => (w, Raise e0)
  | _ =>
      (fst (logging (ERROR (logged ++ exn_str e0)) w),
       Raise (HTTPException 500 (detail ++ exn_str e0)))
  end.
Proof. unfold_m; simpl. by destruct e0. Qed.

Lemma analyze_scene_resume_raises request e0 w :
  analyze_scene_resume request (Raise e0) w =
  http_errors "Scene analysis error: " "Scene analysis failed: " (lift (Raise e0)) w.
Proof. unfold_m; simpl. by destruct e0. Qed.

Lemma ask_question_resume_raises request ctx e0 w :
  ask_question_resume request ctx (Raise e0) w =
  http_errors "Question answering error: " "Question answering failed: "
    (lift (Raise e0)) w.
Proof. unfold_m; simpl. by destruct e0. Qed.

(** As long as it is not cancelled, [analyze_scene] fails in three ways
    only, always with an [HTTPException] and never with a change to the
    registry or the sessions: 503 when the vision backend is not
    initialised, 400 when [b64decode] refuses the payload, and, when the
    collaborator call raises, that exception itself if it is an
    [HTTPException] and else a 500 whose detail quotes it.  Only the 500 is
    logged. *)
Lemma analyze_scene_failures_uncancelled (llm : LlmChat -> UserMessage -> result string)
    (request : SceneAnalysisRequest.t) (w w' : World) (e : exn)
    (Hfail : analyze_scene llm request w = (w', Raise e)) :
  manager w' = manager w /\
  ((vision_chat w = None /\ e = backend_unavailable /\ log w' = log w) \/
   (exists part e0,
      payload (SceneAnalysisRequest.image_data request) = Some part /\
      b64decode part = Raise e0 /\
      e = HTTPException 400 ("Invalid image data: " ++ exn_str e0) /\
      log w' = log w) \/
   (exists chat message e0,
      llm chat message = Raise e0 /\
      match e0 with
      | HTTPException _ _ => e = e0 /\ log w' = log w
      | _ =>
          e = HTTPException 500 ("Scene analysis failed: " ++ exn_str e0) /\
          log w' = (log w ++ [ERROR ("Scene analysis error: " ++ exn_str e0)])%list
      end)).
Proof.
  unfold analyze_scene, bind in Hfail.
  pose proof (analyze_scene_call_manager request w) as (Hm & _).
  pose proof (analyze_scene_call_log request w) as Hl.
  destruct (analyze_scene_call request w) as [w1 [[chat message]|e1]] eqn:Ecall;
    simpl in *.
  - destruct (llm chat message) as [text|e0] eqn:Ellm.
    + by rewrite analyze_scene_resume_text in Hfail.
    + rewrite analyze_scene_resume_raises, http_errors_raise in Hfail.
      split.
      * destruct e0; simplify_eq; simpl; done.
      * right. right. exists chat, message, e0. split; [done|].
        destruct e0; simplify_eq; simpl; by rewrite Hl.
  - simplify_eq. split; [done|].
    apply analyze_scene_call_raises in Ecall as [-> [(Hv & ->)|(part & e0 & Hp & Hd & ->)]].
    + by left.
    + right. left. eauto 10.
Qed.

Lemma analyze_scene_failures_uncancelled_example :
  let out := analyze_scene (fun _ _ => Raise (Exception "timeout"))
               (SceneAnalysisRequest.mk "QUJD" "client1") world2 in
  snd out = Raise (HTTPException 500 "Scene analysis failed: timeout") /\
  manager (fst out) = manager world2.
Proof.
  intros out. split; [reflexivity|].
  apply (analyze_scene_failures_uncancelled (fun _ _ => Raise (Exception "timeout"))
           (SceneAnalysisRequest.mk "QUJD" "client1") world2 (fst out)
           (HTTPException 500 "Scene analysis failed: timeout")).
  reflexivity.
Defined.

Lemma ask_question_call_raises request w w1 e :
  ask_question_call request w = (w1, Raise e) ->
  w1 = w /\
  ((vision_chat w = None /\ e = backend_unavailable) \/
   (get_scene_description (manager w) (QuestionRequest.client_id request) = "" /\
    e = no_context)).
Proof.
  unfold ask_question_call, http_errors, try_except, bind, require_vision_chat,
    get_manager, raise, utcnow, ret.
  destruct (vision_chat w) eqn:Ev; simpl; [|intros [= <- <-]; eauto].
  destruct (String.eqb _ "") eqn:E; simpl; [|done].
  apply String.eqb_eq in E. intros [= <- <-]. eauto.
Qed.

(** As long as it is not cancelled, [ask_question] fails in three ways
    only, always with an [HTTPException] and without appending to any
    history: 503 when the vision backend is not initialised, 400 when the
    client has no description, and, when the collaborator call raises,
    that exception itself if it is an [HTTPException] and else a logged
    500. *)
Lemma ask_question_failures_uncancelled (llm : LlmChat -> UserMessage -> result string)
    (request : QuestionRequest.t) (w w' : World) (e : exn)
    (Hfail : ask_question llm request w = (w', Raise e)) :
  manager w' = manager w /\
  ((vision_chat w = None /\ e = backend_unavailable /\ log w' = log w) \/
   (get_scene_description (manager w) (QuestionRequest.client_id request) = "" /\
    e = no_context /\ log w' = log w) \/
   (exists chat message e0,
      llm chat message = Raise e0 /\
      match e0 with
      | HTTPException _ _ => e = e0 /\ log w' = log w
      | _ =>
          e = HTTPException 500 ("Question answering failed: " ++ exn_str e0) /\
          log w' = (log w ++ [ERROR ("Question answering error: " ++ exn_str e0)])%list
      end)).
Proof.
  unfold ask_question, bind in Hfail.
  pose proof (ask_question_call_manager request w) as (Hm & _).
  pose proof (ask_question_call_log request w) as Hl.
  destruct (ask_question_call request w) as [w1 [[ctx [chat message]]|e1]] eqn:Ecall;
    simpl in *.
  - destruct (llm chat message) as [text|e0] eqn:Ellm.
    + rewrite ask_question_resume_text in Hfail. by case_match.
    + rewrite ask_question_resume_raises, http_errors_raise in Hfail.
      split.
      * destruct e0; simplify_eq; simpl; done.
      * right. right. exists chat, message, e0. split; [done|].
        destruct e0; simplify_eq; simpl; by rewrite Hl.
  - simplify_eq. split; [done|].
    apply ask_question_call_raises in Ecall as [-> [(Hv & ->)|(Hd & ->)]].
    + by left.
    + right. by left.
Qed.

Lemma ask_question_failures_uncancelled_example :
  let out := ask_question (fun _ _ => Raise (Exception "timeout"))
               (QuestionRequest.mk "what color?" "client1") world2 in
  snd out = Raise (HTTPException 500 "Question answering failed: timeout") /\
  manager (fst out) = manager world2.
Proof.
  intros out. split; [reflexivity|].
  apply (ask_question_failures_uncancelled (fun _ _ => Raise (Exception "timeout"))
           (QuestionRequest.mk "what color?" "client1") world2 (fst out)
           (HTTPException 500 "Question answering failed: timeout")).
  reflexivity.
Defined.

(** ** More on the realtime registry *)

Lemma accept_raises websocket w w1 e :
  accept websocket w = (w1, Raise e) -> w1 = w.
Proof. crunch; congruence. Qed.

Lemma accept_ok websocket w w1 :
  accept websocket w = (w1, Ok tt) ->
  manager w1 = manager w /\
  application_state <$> websockets w1 !! websocket = Some CONNECTED.
Proof.
  unfold accept, set_websocket.
  destruct (websockets w !! websocket) as [s|]; [|done].
  destruct (application_state s); try done.
  intros [= <-]. simpl. by rewrite lookup_insert_eq.
Qed.

(** X10: [connect] either raises in [accept], and then registers nothing
    and changes nothing, or accepts the channel and makes it the one
    registered for the identifier, with a new empty session: a description
    and a history the identifier had before are gone.  Other identifiers
    keep their channel and session. *)
Theorem X10_connect_outcomes (websocket : nat) (client_id : string) (w : World) :
  let w' := fst (connect websocket client_id w) in
  match snd (connect websocket client_id w) with
  | Raise _ => w' = w
  | Ok _ =>
      active_connections (manager w') !! client_id = Some websocket /\
      client_sessions (manager w') !! client_id = Some new_session /\
      get_scene_description (manager w') client_id = "" /\
      application_state <$> websockets w' !! websocket = Some CONNECTED /\
      (forall c, c <> client_id ->
         active_connections (manager w') !! c = active_connections (manager w) !! c /\
         client_sessions (manager w') !! c = client_sessions (manager w) !! c)
  end.
Proof.
  unfold connect, bind.
  destruct (accept websocket w) as [w1 [[]|e]] eqn:Ea; simpl.
  - apply accept_ok in Ea as [Hm Hs]. rewrite Hm.
    unfold get_scene_description. simpl. rewrite !lookup_insert_eq.
    repeat split; try done; by rewrite lookup_insert_ne.
  - by apply accept_raises in Ea.
Qed.

(** X11: [disconnect] never raises and removes the channel entry and the
    session of its identifier only: the other identifiers keep theirs, and
    no channel is touched (the removed one is not closed).  With the
    backend up, the next question of that identifier is refused with the
    400 "no scene" error. *)
Theorem X11_disconnect_frame (client_id : string) (w : World) :
  let w' := fst (disconnect client_id w) in
  snd (disconnect client_id w) = Ok tt /\
  active_connections (manager w') !! client_id = None /\
  client_sessions (manager w') !! client_id = None /\
  websockets w' = websockets w /\
  (forall c, c <> client_id ->
     active_connections (manager w') !! c = active_connections (manager w) !! c /\
     client_sessions (manager w') !! c = client_sessions (manager w) !! c) /\
  (forall chat request,
     vision_chat w = Some chat ->
     QuestionRequest.client_id request = client_id ->
     ask_question_call request w' = (w', Raise no_context)).
Proof.
  intros w'. pose proof (disconnect_lookup client_id w) as [Ha Hs].
  pose proof (disconnect_rest client_id w) as [Hw Hv].
  split; [apply disconnect_ok|]. split; [done|]. split; [done|]. split; [done|].
  split.
  - intros c Hc. subst w'. rewrite disconnect_manager. simpl.
    by rewrite !lookup_delete_ne.
  - intros chat request Hchat <-.
    apply (ask_question_call_refused _ _ chat); [subst w'; by rewrite Hv|].
    unfold get_scene_description. fold w' in Hs. by rewrite Hs.
Qed.

(** X12: when the identifier has a registered channel that is accepted and
    whose peer is alive, [send_message] appends the message to what was
    sent on that channel and changes nothing else: registry, sessions, log
    and the other channels are as before. *)
Theorem X12_send_message_delivers (client_id : string) (message : Message)
    (w : World) (websocket : nat) (s : WebSocket)
    (Hreg : active_connections (manager w) !! client_id = Some websocket)
    (Hsock : websockets w !! websocket = Some s)
    (Hstate : application_state s = CONNECTED)
    (Halive : peer_alive s = true) :
  let w' := fst (send_message client_id message w) in
  snd (send_message client_id message w) = Ok tt /\
  websockets w' =
    <[websocket := {| application_state := CONNECTED; peer_alive := true;
                      sent := (sent s ++ [message])%list |}]> (websockets w) /\
  manager w' = manager w /\ log w' = log w /\ vision_chat w' = vision_chat w.
Proof.
  unfold send_message, bind, get_manager, try_except, send_text, set_websocket.
  simpl. rewrite Hreg, Hsock, Hstate, Halive. done.
Qed.

Lemma X12_send_message_delivers_witness :
  sent <$> websockets (fst (send_message "client1" [("type", JStr "pong")] world1))
             !! 0%nat
  = Some [[("type", JStr "pong")]].
Proof.
  destruct (X12_send_message_delivers "client1" [("type", JStr "pong")] world1 0
              {| application_state := CONNECTED; peer_alive := true; sent := [] |})
    as (_ & H & _); [reflexivity | reflexivity | reflexivity | reflexivity |].
  rewrite H. by rewrite lookup_insert_eq.
Defined.

(** X13: in every state the server reaches from its start, whatever the
    events, the registry of channels and the dictionary of sessions have
    the same identifiers as keys: an identifier has a session exactly
    when it has a registered channel. *)
Theorem X13_registry_and_sessions_agree (chat : option LlmChat)
    (clock : nat -> datetime) (evs : list Event) (client_id : string) :
  let m := manager (world (run (boot (initial_world chat clock)) evs)) in
  is_Some (active_connections m !! client_id) <->
  is_Some (client_sessions m !! client_id).
Proof.
  intros m. pose proof (reachable_consistent chat clock evs) as H.
  fold m in H. unfold consistent in H.
  rewrite <- !elem_of_dom. by rewrite H.
Qed.

(** ** The realtime endpoint *)

Lemma websocket_endpoint_turn_received client_id type w :
  websocket_endpoint_turn client_id (Ok type) w =
  (fst ((if bool_decide (type = Some "ping") then
           send_message client_id [("type", JStr "pong")]
         else if bool_decide (type = Some "scene_update") then
           t <- utcnow ;;
           send_message client_id
             [("type", JStr "scene_acknowledged"); ("timestamp", JIsoformat t)]
         else ret tt) w),
   Ok true).
Proof.
  unfold websocket_endpoint_turn, try_except. unfold bind at 1. unfold lift at 1.
  unfold bind at 1.
  repeat case_bool_decide.
  - pose proof (send_message_ok client_id [("type", JStr "pong")] w) as Hok.
    by destruct (send_message _ _ w) as [w1 [[]|e]].
  - unfold bind, utcnow. simpl.
    match goal with |- context [send_message ?a ?b ?c] =>
      pose proof (send_message_ok a b c) as Hok;
      by destruct (send_message a b c) as [w1 [[]|e]] end.
  - done.
Qed.

Lemma websocket_endpoint_turn_raised client_id e w :
  websocket_endpoint_turn client_id (Raise e) w =
  (fst (disconnect client_id
          (match e with
           | WebSocketDisconnect => w
           | _ => fst (logging (ERROR ("WebSocket error for client " ++ client_id
                                       ++ ": " ++ exn_str e)) w)
           end)),
   Ok false).
Proof. unfold_m; simpl. by destruct e. Qed.



(** X15: a received message whose ["type"] is neither ["ping"] nor
    ["scene_update"] (or is missing) is ignored: nothing is sent, nothing
    changes, and the loop goes on. *)
Theorem X15_unknown_message_ignored (client_id : string) (type : option string)
    (w : World)
    (Hping : type <> Some "ping")
    (Hupdate : type <> Some "scene_update") :
  websocket_endpoint_turn client_id (Ok type) w = (w, Ok true).
Proof.
  rewrite websocket_endpoint_turn_received.
  rewrite !bool_decide_eq_false_2 by done. done.
Qed.

Lemma X15_unknown_message_ignored_witness :
  websocket_endpoint_turn "client1" (Ok (Some "hello")) world1 = (world1, Ok true) /\
  websocket_endpoint_turn "client1" (Ok None) world1 = (world1, Ok true).
Proof.
  split.
  - apply (X15_unknown_message_ignored "client1" (Some "hello") world1); discriminate.
  - apply (X15_unknown_message_ignored "client1" None world1); discriminate.
Defined.

(** X16: the answer to a ["ping"] goes to the channel that is registered
    for the identifier at that moment, with the registry, the sessions and
    the log unchanged: a ["pong"] is appended to what was sent on that
    channel, also when the ping came in on another connection of the same
    identifier. *)
Theorem X16_pong_goes_to_registered_channel (s : Server) (websocket registered : nat)
    (client_id : string) (sock : WebSocket)
    (Hendpoint : endpoints s !! websocket = Some client_id)
    (Hreg : active_connections (manager (world s)) !! client_id = Some registered)
    (Hsock : websockets (world s) !! registered = Some sock)
    (Hstate : application_state sock = CONNECTED)
    (Halive : peer_alive sock = true) :
  let s' := step s (WebSocketReceives websocket (Ok (Some "ping"))) in
  websockets (world s') =
    <[registered := {| application_state := CONNECTED; peer_alive := true;
                       sent := (sent sock ++ [[("type", JStr "pong")]])%list |}]>
      (websockets (world s)) /\
  manager (world s') = manager (world s) /\
  log (world s') = log (world s) /\
  endpoints s' = endpoints s.
Proof.
  simpl. rewrite Hendpoint, websocket_endpoint_turn_received. simpl.
  unfold send_message, bind, get_manager, try_except, send_text, set_websocket.
  simpl. rewrite Hreg, Hsock, Hstate, Halive. done.
Qed.

Lemma X16_pong_goes_to_registered_channel_witness :
  let s := run (boot world0) [WebSocketOpens "client1"; WebSocketOpens "client1"] in
  let s' := step s (WebSocketReceives 0 (Ok (Some "ping"))) in
  sent <$> websockets (world s') !! 1%nat = Some [[("type", JStr "pong")]] /\
  sent <$> websockets (world s') !! 0%nat = Some [].
Proof.
  intros s s'.
  destruct (X16_pong_goes_to_registered_channel s 0 1 "client1"
              {| application_state := CONNECTED; peer_alive := true; sent := [] |})
    as (H & _); [reflexivity | reflexivity | reflexivity | reflexivity | reflexivity |].
  fold s' in H. rewrite H. split; reflexivity.
Defined.

(** X17: when the endpoint of any connection of an identifier sees its
    peer close (or fails otherwise), the identifier loses its registered
    channel and its session, whichever channel was registered for it, so
    also the channel of a newer connection whose own endpoint keeps
    looping; only the endpoint that failed ends. *)
Theorem X17_closing_connection_unregisters_identifier (s : Server) (websocket : nat)
    (client_id : string) (e : exn)
    (Hendpoint : endpoints s !! websocket = Some client_id) :
  let s' := step s (WebSocketReceives websocket (Raise e)) in
  active_connections (manager (world s')) !! client_id = None /\
  client_sessions (manager (world s')) !! client_id = None /\
  endpoints s' = delete websocket (endpoints s) /\
  websockets (world s') = websockets (world s).
Proof.
  simpl. rewrite Hendpoint, websocket_endpoint_turn_raised. cbn [fst snd world endpoints].
  rewrite disconnect_manager. cbn [active_connections client_sessions].
  rewrite !lookup_delete_eq. rewrite (proj1 (disconnect_rest client_id _)).
  repeat split; try done. by destruct e.
Qed.

Lemma X17_closing_connection_unregisters_identifier_witness :
  let s := run (boot world0) [WebSocketOpens "client1"; WebSocketOpens "client1"] in
  let s' := step s (WebSocketReceives 0 (Raise WebSocketDisconnect)) in
  active_connections (manager (world s)) !! "client1" = Some 1%nat /\
  active_connections (manager (world s')) !! "client1" = None /\
  endpoints s' !! 1%nat = Some "client1".
Proof.
  intros s s'. split; [reflexivity|].
  destruct (X17_closing_connection_unregisters_identifier s 0 "client1"
              WebSocketDisconnect) as (H & _ & He & _); [reflexivity|].
  fold s' in H, He. split; [exact H|]. rewrite He. reflexivity.
Defined.

(** ** Health and start-up *)

Lemma analyze_scene_call_not_503 request w chat :
  vision_chat w = Some chat ->
  snd (analyze_scene_call request w) <> Raise backend_unavailable.
Proof.
  intros Hv H.
  destruct (analyze_scene_call request w) as [w1 [call|e]] eqn:E; simpl in H; [done|].
  simplify_eq.
  apply analyze_scene_call_raises in E as [_ [[Hn _]|(part & e0 & _ & _ & He)]];
    [congruence | discriminate].
Qed.

Lemma ask_question_call_not_503 request w chat :
  vision_chat w = Some chat ->
  snd (ask_question_call request w) <> Raise backend_unavailable.
Proof.
  intros Hv H.
  destruct (ask_question_call request w) as [w1 [call|e]] eqn:E; simpl in H; [done|].
  simplify_eq.
  apply ask_question_call_raises in E as [_ [[Hn _]|[_ He]]];
    [congruence | discriminate].
Qed.

Lemma analyze_scene_call_503 request w :
  vision_chat w = None ->
  analyze_scene_call request w = (w, Raise backend_unavailable).
Proof. intros Hv. unfold_m. simpl. by rewrite Hv. Qed.

Lemma ask_question_call_503 request w :
  vision_chat w = None ->
  ask_question_call request w = (w, Raise backend_unavailable).
Proof. intros Hv. unfold_m. simpl. by rewrite Hv. Qed.

(** X18: [health_check] never fails and always reports the status
    ["healthy"], also when nothing is loaded; it changes neither registry
    nor sessions.  Its [vision_loaded] flag is false exactly when scene
    analyses and questions are refused with the 503 error, and its
    [whisper_loaded] flag tells whether [whisper_model] is set. *)
Theorem X18_health_check_flags {Segment : Type}
    (whisper_model : option (WhisperModel Segment)) (w : World) :
  exists h,
    snd (health_check whisper_model w) = Ok h /\
    Health.status h = "healthy" /\
    manager (fst (health_check whisper_model w)) = manager w /\
    (Health.whisper_loaded h = true <-> is_Some whisper_model) /\
    (Health.vision_loaded h = false <->
       forall request, snd (analyze_scene_call request w) = Raise backend_unavailable) /\
    (Health.vision_loaded h = false <->
       forall request, snd (ask_question_call request w) = Raise backend_unavailable).
Proof.
  eexists. split; [reflexivity|]. simpl.
  split; [done|]. split; [done|]. split; [apply bool_decide_eq_true|].
  split.
  - rewrite bool_decide_eq_false. split.
    + intros Hn request. rewrite analyze_scene_call_503; [done|].
      destruct (vision_chat w); [|done]. by destruct Hn.
    + intros H [chat Hchat].
      by apply (analyze_scene_call_not_503 (SceneAnalysisRequest.mk "" "") w chat).
  - rewrite bool_decide_eq_false. split.
    + intros Hn request. rewrite ask_question_call_503; [done|].
      destruct (vision_chat w); [|done]. by destruct Hn.
    + intros H [chat Hchat].
      by apply (ask_question_call_not_503 (QuestionRequest.mk "" "") w chat).
Qed.

(** X19: when [startup_event] fails it raises the exception again after
    logging it, and leaves registry and sessions alone.  If loading
    Whisper fails, neither global is set.  If Whisper loads but
    [EMERGENT_LLM_KEY] is missing or empty, [whisper_model] is already set
    while [vision_chat] is not: from then on scene analyses are refused
    with the 503 error. *)
Theorem X19_startup_failures {Segment : Type}
    (load_model : result (WhisperModel Segment)) (emergent_key : option string)
    (whisper_model : option (WhisperModel Segment)) (w : World)
    (Hfail : (exists e, load_model = Raise e) \/
             emergent_key = None \/ emergent_key = Some "") :
  let out := startup_event load_model emergent_key whisper_model w in
  let e := match load_model with
           | Raise e => e
           | Ok _ => Exception "EMERGENT_LLM_KEY not found in environment"
           end in
  snd out = Raise e /\
  vision_chat (snd (fst out)) = vision_chat w /\
  manager (snd (fst out)) = manager w /\
  last (log (snd (fst out))) = Some (ERROR ("Startup error: " ++ exn_str e)) /\
  fst (fst out) = match load_model with
                  | Raise _ => whisper_model
                  | Ok model => Some model
                  end /\
  (vision_chat w = None ->
   forall request,
     analyze_scene_call request (snd (fst out)) =
       (snd (fst out), Raise backend_unavailable)).
Proof.
  intros out e.
  assert (H : snd out = Raise e /\
              vision_chat (snd (fst out)) = vision_chat w /\
              manager (snd (fst out)) = manager w /\
              last (log (snd (fst out))) = Some (ERROR ("Startup error: " ++ exn_str e)) /\
              fst (fst out) = match load_model with
                              | Raise _ => whisper_model
                              | Ok model => Some model
                              end).
  { subst out e. unfold startup_event.
    destruct load_model as [model|e0]; simpl.
    - destruct Hfail as [[e1 He1]|[->| ->]]; [done| |]; simpl;
        rewrite ?last_snoc; done.
    - rewrite last_snoc. done. }
  destruct H as (H1 & H2 & H3 & H4 & H5). repeat split; try done.
  intros Hn request. apply analyze_scene_call_503. by rewrite H2.
Qed.

Lemma X19_startup_failures_witness :
  let out := startup_event (Ok sample_whisper) None None world_not_started in
  snd out = Raise (Exception "EMERGENT_LLM_KEY not found in environment") /\
  vision_chat (snd (fst out)) = None /\
  is_Some (fst (fst out)).
Proof.
  intros out.
  destruct (X19_startup_failures (Ok sample_whisper) None None world_not_started)
    as (H1 & H2 & _ & _ & H5 & _); [by right; left|].
  fold out in H1, H2, H5. split; [exact H1|]. split; [exact H2|].
  rewrite H5. by eexists.
Defined.

(** X20: when Whisper loads and [EMERGENT_LLM_KEY] is a non-empty text,
    [startup_event] succeeds and sets both globals; registry and sessions
    are untouched, [health_check] then reports both models as loaded, and
    no scene analysis or question is refused with the 503 error. *)
Theorem X20_startup_success {Segment : Type}
    (model : WhisperModel Segment) (key : string)
    (whisper_model : option (WhisperModel Segment)) (w : World)
    (Hkey : key <> "") :
  let out := startup_event (Ok model) (Some key) whisper_model w in
  let w' := snd (fst out) in
  snd out = Ok tt /\
  fst (fst out) = Some model /\
  vision_chat w' = Some startup_vision_chat /\
  manager w' = manager w /\
  (exists t, snd (health_check (fst (fst out)) w') = Ok (Health.mk "healthy" true true t)) /\
  (forall request, snd (analyze_scene_call request w') <> Raise backend_unavailable) /\
  (forall request, snd (ask_question_call request w') <> Raise backend_unavailable).
Proof.
  intros out w'. subst w' out. unfold startup_event.
  destruct key as [|c key]; [done|]. simpl.
  repeat split; try done.
  - eexists. reflexivity.
  - intros request. by eapply analyze_scene_call_not_503.
  - intros request. by eapply ask_question_call_not_503.
Qed.

Lemma X20_startup_success_witness :
  let out := startup_event (Ok sample_whisper) (Some "sk-key") None world_not_started in
  snd out = Ok tt /\ vision_chat (snd (fst out)) = Some startup_vision_chat.
Proof.
  intros out.
  destruct (X20_startup_success sample_whisper "sk-key" None world_not_started)
    as (H1 & _ & H3 & _); [discriminate|].
  split; [exact H1 | exact H3].
Defined.

(** ** Speech transcription *)

(** X21: [transcribe_audio] refuses a request before it reads the upload
    or touches the disk when Whisper is not loaded (503) or when the
    content type is missing, empty or does not begin with ["audio/"]
    (400); the missing model is reported first.  Nothing is logged. *)
Theorem X21_transcribe_refusals {Segment : Type}
    (whisper_model : option (WhisperModel Segment)) (file : UploadFile)
    (written : WriteOutcome) (temp_file_path : string) (fs : FileSystem) (w : World)
    (Hrefuse : whisper_model = None \/ not_audio (content_type file) = true) :
  transcribe_audio whisper_model file written temp_file_path fs w =
  (fs, (w, Raise (match whisper_model with
                  | None => HTTPException 503 "Whisper model not available"
                  | Some _ => HTTPException 400 "File must be an audio format"
                  end))).
Proof.
  unfold transcribe_audio. destruct whisper_model as [model|]; [|done].
  destruct Hrefuse as [H| ->]; done.
Qed.

Lemma X21_transcribe_refusals_witness :
  transcribe_audio (Some sample_whisper)
    {| content_type := Some "text/plain";
       read := Ok (list_byte_of_string "not an audio file") |}
    Written "/tmp/tmpab12.tmp" ∅ world0 =
  (∅, (world0, Raise (HTTPException 400 "File must be an audio format"))) /\
  transcribe_audio (@None (WhisperModel string)) wav_upload Written
    "/tmp/tmpab12.tmp" ∅ world0 =
  (∅, (world0, Raise (HTTPException 503 "Whisper model not available"))).
Proof.
  split.
  - apply (X21_transcribe_refusals (Some sample_whisper)). by right.
  - apply (X21_transcribe_refusals (@None (WhisperModel string))). by left.
Defined.

(** X22: the temporary file is removed again exactly on the path that
    reaches Whisper.  Once the upload has been read and written to the
    file, the file is removed whether Whisper returns or raises: with a
    fresh temporary name the disk is afterwards exactly as before, Whisper
    having run on exactly the uploaded content.  When writing the file
    raises, which happens before the [try] whose [finally] removes it, the
    request fails and the file stays on disk with what was written.
    Registry and sessions are not touched in either case. *)
Theorem X22_temp_file_removal {Segment : Type}
    (model : WhisperModel Segment) (file : UploadFile) (content : bytes)
    (written : WriteOutcome) (temp_file_path : string) (fs : FileSystem) (w : World)
    (Haudio : not_audio (content_type file) = false)
    (Hread : read file = Ok content)
    (Hfresh : fs !! temp_file_path = None) :
  let out := transcribe_audio (Some model) file written temp_file_path fs w in
  manager (fst (snd out)) = manager w /\
  match written with
  | Written =>
      fst out = fs /\
      snd out =
        http_errors "Audio transcription error: " "Transcription failed: "
          (lift match model content with
                | Ok result =>
                    match WhisperResult.text result with
                    | Some text =>
                        Ok (Transcription.mk (strip text)
                              (default "en" (WhisperResult.language result))
                              (default [] (WhisperResult.segments result)))
                    | None => Raise (Exception "'text'")
                    end
                | Raise e => Raise e
                end) w
  | WriteRaises partial e =>
      fst out = <[temp_file_path := partial]> fs /\
      fst out !! temp_file_path = Some partial /\
      snd out =
        match e with
        | HTTPException _ _ => (w, Raise e)
        | _ =>
            (fst (logging (ERROR ("Audio transcription error: " ++ exn_str e)) w),
             Raise (HTTPException 500 ("Transcription failed: " ++ exn_str e)))
        end
  end.
Proof.
  unfold transcribe_audio, transcribe. rewrite Haudio, Hread.
  cbv zeta beta. unfold FileSystem in *. destruct written as [|partial e].
  - cbn [fst snd].
    rewrite lookup_insert_eq, insert_insert_eq, delete_insert_eq.
    split; [|split; [by apply delete_id|done]].
    unfold http_errors, try_except, lift, bind, logging, raise.
    by repeat case_match.
  - cbn [fst snd]. rewrite insert_insert_eq, lookup_insert_eq.
    rewrite http_errors_raise. split; [by destruct e|]. done.
Qed.

Lemma X22_temp_file_removal_witness :
  transcribe_audio (Some sample_whisper) wav_upload Written "/tmp/tmpab12.tmp" ∅ world0 =
    (∅, (world0, Ok (Transcription.mk "hello world" "en" ["hello"; "world"]))) /\
  fst (transcribe_audio (Some sample_whisper) wav_upload
         (WriteRaises (list_byte_of_string "RI") (Exception "No space left on device"))
         "/tmp/tmpab12.tmp" ∅ world0) !! "/tmp/tmpab12.tmp" =
    Some (list_byte_of_string "RI").
Proof.
  split.
  - destruct (X22_temp_file_removal sample_whisper wav_upload
                (list_byte_of_string "RIFF") Written "/tmp/tmpab12.tmp" ∅ world0)
      as (_ & H1 & H3); [reflexivity | reflexivity | reflexivity |].
    rewrite (surjective_pairing (transcribe_audio _ _ _ _ _ _)), H1, H3. reflexivity.
  - destruct (X22_temp_file_removal sample_whisper wav_upload
                (list_byte_of_string "RIFF")
                (WriteRaises (list_byte_of_string "RI")
                   (Exception "No space left on device"))
                "/tmp/tmpab12.tmp" ∅ world0)
      as (_ & _ & H2 & _); [reflexivity | reflexivity | reflexivity |].
    exact H2.
Defined.

(** X23: when reading the upload raises, the request fails (with a logged
    500 unless the exception is an [HTTPException]) and the temporary
    file, created empty before the read, is left on disk: it is removed
    only on the path that reaches Whisper. *)
Theorem X23_temp_file_left_when_read_fails {Segment : Type}
    (model : WhisperModel Segment) (file : UploadFile) (e : exn)
    (written : WriteOutcome) (temp_file_path : string) (fs : FileSystem) (w : World)
    (Haudio : not_audio (content_type file) = false)
    (Hread : read file = Raise e) :
  let out := transcribe_audio (Some model) file written temp_file_path fs w in
  fst out !! temp_file_path = Some [] /\
  fst out = <[temp_file_path := []]> fs /\
  snd out =
    match e with
    | HTTPException _ _ => (w, Raise e)
    | _ =>
        (fst (logging (ERROR ("Audio transcription error: " ++ exn_str e)) w),
         Raise (HTTPException 500 ("Transcription failed: " ++ exn_str e)))
    end.
Proof.
  unfold transcribe_audio. rewrite Haudio, Hread.
  cbv zeta beta. cbn [fst snd]. unfold FileSystem in *.
  rewrite lookup_insert_eq. split; [done|]. split; [done|].
  apply http_errors_raise.
Qed.

Lemma X23_temp_file_left_when_read_fails_witness :
  let out := transcribe_audio (Some sample_whisper)
               {| content_type := Some "audio/wav";
                  read := Raise (Exception "client disconnected") |}
               Written "/tmp/tmpab12.tmp" ∅ world0 in
  fst out !! "/tmp/tmpab12.tmp" = Some [] /\
  snd (snd out) =
    Raise (HTTPException 500 "Transcription failed: client disconnected").
Proof.
  intros out.
  destruct (X23_temp_file_left_when_read_fails sample_whisper
              {| content_type := Some "audio/wav";
                 read := Raise (Exception "client disconnected") |}
              (Exception "client disconnected") Written "/tmp/tmpab12.tmp" ∅ world0)
    as (H1 & _ & H3); [reflexivity | reflexivity |].
  fold out in H1, H3. split; [exact H1|]. by rewrite H3.
Defined.

Lemma prefix_app p s : String.prefix p (p ++ s) = true.
Proof.
  induction p as [|c p IH]; simpl; [by destruct s|].
  destruct (ascii_dec c c); [done|congruence].
Qed.

Lemma prefix_inv p s : String.prefix p s = true -> exists rest, s = p ++ rest.
Proof.
  revert s. induction p as [|c p IH]; intros s; [simpl; eauto|].
  destruct s as [|c' s]; simpl; [done|].
  destruct (ascii_dec c c') as [->|]; [|done].
  intros H. destruct (IH s H) as [rest ->]. eauto.
Qed.

(** X24: the content-type test of [transcribe_audio] lets a request
    through exactly when the type begins, in lower case, with
    ["audio/"]; a missing type, the empty one, and types such as
    ["video/mp4"], ["AUDIO/wav"] or ["audio"] are refused. *)
Theorem X24_content_type_test (content_type : option string) :
  (not_audio content_type = false <->
   exists rest, content_type = Some ("audio/" ++ rest)) /\
  not_audio (Some "AUDIO/wav") = true /\ not_audio (Some "audio") = true.
Proof.
  split; [|done]. unfold not_audio. split.
  - destruct content_type as [t|]; [|done]. intros H.
    apply orb_false_iff in H as [_ H]. apply negb_false_iff in H.
    destruct (prefix_inv _ _ H) as [rest ->]. eauto.
  - intros [rest ->]. by rewrite prefix_app.
Qed.

(** ** Base64: decoding what was encoded *)

Lemma forallb_seqZ (f : Z -> bool) (n : Z) :
  forallb f (seqZ 0 n) = true -> forall x, 0 <= x < n -> f x = true.
Proof.
  intros H x Hx. rewrite forallb_forall in H. apply H.
  apply list_elem_of_In, elem_of_seqZ. lia.
Qed.

Lemma byte_val_range b : 0 <= byte_val b < 256.
Proof. destruct b; vm_compute; split; congruence. Qed.

Lemma byte_of_val b : byte_of (byte_val b) = b.
Proof. by destruct b. Qed.

Lemma byte_of_land v x : Z.land v 255 = Z.land x 255 -> byte_of v = byte_of x.
Proof. unfold byte_of. by intros ->. Qed.

Lemma table_round_trip s :
  0 <= s < 64 ->
  table_a2b_base64 (table_b2a_base64 s) = Some s /\
  Ascii.eqb (table_b2a_base64 s) BASE64_PAD = false /\
  (ord (table_b2a_base64 s) <? 128) = true.
Proof.
  intros Hs.
  pose proof (forallb_seqZ
    (fun s => match table_a2b_base64 (table_b2a_base64 s) with
              | Some s' => s' =? s
              | None => false
              end
              && negb (Ascii.eqb (table_b2a_base64 s) BASE64_PAD)
              && (ord (table_b2a_base64 s) <? 128)) 64 eq_refl s Hs) as H.
  simpl in H. apply andb_prop in H as [H H3]. apply andb_prop in H as [H1 H2].
  destruct (table_a2b_base64 (table_b2a_base64 s)) as [s'|]; [|done].
  apply Z.eqb_eq in H1 as ->. by apply negb_true_iff in H2.
Qed.

Lemma sextet_range s : sextet s = true -> 0 <= s < 64.
Proof. unfold sextet. intros H. apply andb_prop in H as [H1 H2]. lia. Qed.

Lemma same_byte_of v b : same_byte v (byte_val b) = true -> byte_of v = b.
Proof.
  unfold same_byte. intros H. apply Z.eqb_eq in H.
  rewrite <- (byte_of_val b). by apply byte_of_land.
Qed.

Lemma byte_checks b : byte_check (byte_val b) = true.
Proof.
  apply (forallb_seqZ byte_check 256); [by vm_compute | apply byte_val_range].
Qed.

Lemma pair_checks a b : pair_check (byte_val a) (byte_val b) = true.
Proof.
  apply (forallb_seqZ (fun y => pair_check (byte_val a) y) 256);
    [|apply byte_val_range].
  apply (forallb_seqZ (fun x => forallb (pair_check x) (seqZ 0 256)) 256);
    [by vm_compute | apply byte_val_range].
Qed.

Lemma loop_step s rest q l p out :
  0 <= s < 64 ->
  a2b_base64_loop (String (table_b2a_base64 s) rest) q l p out =
  if q =? 0 then a2b_base64_loop rest 1 s 0 out
  else if q =? 1 then
    a2b_base64_loop rest 2 (Z.land s 15) 0
      (out ++ [byte_of (Z.lor (Z.shiftl l 2) (Z.shiftr s 4))])%list
  else if q =? 2 then
    a2b_base64_loop rest 3 (Z.land s 3) 0
      (out ++ [byte_of (Z.lor (Z.shiftl l 4) (Z.shiftr s 2))])%list
  else
    a2b_base64_loop rest 0 0 0
      (out ++ [byte_of (Z.lor (Z.shiftl l 6) s)])%list.
Proof.
  intros Hs. destruct (table_round_trip s Hs) as (H1 & H2 & _).
  cbn [a2b_base64_loop]. by rewrite H2, H1.
Qed.

Lemma loop_encode (n : nat) : forall (data out : bytes),
  (List.length data <= n)%nat ->
  a2b_base64_loop (b64encode data) 0 0 0 out = Ok (out ++ data)%list.
Proof.
  induction n as [|n IH]; intros data out Hlen.
  - destruct data; [|simpl in Hlen; lia]. simpl. by rewrite app_nil_r.
  - destruct data as [|a [|b [|c rest]]].
    + simpl. by rewrite app_nil_r.
    + pose proof (byte_checks a) as Ha. split_checks Ha.
      cbn [b64encode]. cbv zeta.
      rewrite loop_step by (by apply sextet_range). cbn [Z.eqb].
      rewrite loop_step by (by apply sextet_range). cbn [Z.eqb Pos.eqb].
      rewrite (same_byte_of _ a) by done.
      reflexivity.
    + pose proof (byte_checks a) as Ha. split_checks Ha.
      pose proof (byte_checks b) as Hb. split_checks Hb.
      pose proof (pair_checks a b) as Hab. split_checks Hab.
      cbn [b64encode]. cbv zeta.
      rewrite loop_step by (by apply sextet_range). cbn [Z.eqb].
      rewrite loop_step by (by apply sextet_range). cbn [Z.eqb Pos.eqb].
      rewrite loop_step by (by apply sextet_range). cbn [Z.eqb Pos.eqb].
      rewrite (same_byte_of _ a) by done.
      match goal with H : (Z.land _ 15 =? _) = true |- _ =>
        apply Z.eqb_eq in H; rewrite H end.
      rewrite (same_byte_of _ b) by done.
      cbn. by rewrite <- app_assoc.
    + pose proof (byte_checks a) as Ha. split_checks Ha.
      pose proof (byte_checks c) as Hc. split_checks Hc.
      pose proof (pair_checks a b) as Hab. split_checks Hab.
      pose proof (pair_checks b c) as Hbc. split_checks Hbc.
      cbn [b64encode]. cbv zeta.
      rewrite loop_step by (by apply sextet_range). cbn [Z.eqb].
      rewrite loop_step by (by apply sextet_range). cbn [Z.eqb Pos.eqb].
      rewrite loop_step by (by apply sextet_range). cbn [Z.eqb Pos.eqb].
      rewrite loop_step by (by apply sextet_range). cbn [Z.eqb Pos.eqb].
      rewrite (same_byte_of _ a) by done.
      repeat match goal with H : (Z.land _ _ =? Z.shiftr _ _) = true |- _ =>
        apply Z.eqb_eq in H; rewrite ?H end.
      rewrite (same_byte_of _ b) by done.
      rewrite (same_byte_of _ c) by done.
      rewrite IH by (simpl in Hlen; lia).
      by rewrite <- !app_assoc.
Qed.

Lemma is_ascii_step s rest :
  0 <= s < 64 ->
  is_ascii (String (table_b2a_base64 s) rest) = is_ascii rest.
Proof.
  intros Hs. destruct (table_round_trip s Hs) as (_ & _ & H).
  cbn [is_ascii]. by rewrite H.
Qed.

Lemma is_ascii_encode (n : nat) : forall data : bytes,
  (List.length data <= n)%nat -> is_ascii (b64encode data) = true.
Proof.
  induction n as [|n IH]; intros data Hlen.
  - by destruct data; [|simpl in Hlen; lia].
  - destruct data as [|a [|b [|c rest]]]; [done| | |].
    + pose proof (byte_checks a) as Ha. split_checks Ha.
      cbn [b64encode]. cbv zeta.
      by rewrite !is_ascii_step by (by apply sextet_range).
    + pose proof (byte_checks a) as Ha. split_checks Ha.
      pose proof (byte_checks b) as Hb. split_checks Hb.
      pose proof (pair_checks a b) as Hab. split_checks Hab.
      cbn [b64encode]. cbv zeta.
      by rewrite !is_ascii_step by (by apply sextet_range).
    + pose proof (byte_checks a) as Ha. split_checks Ha.
      pose proof (byte_checks c) as Hc. split_checks Hc.
      pose proof (pair_checks a b) as Hab. split_checks Hab.
      pose proof (pair_checks b c) as Hbc. split_checks Hbc.
      cbn [b64encode]. cbv zeta.
      rewrite !is_ascii_step by (by apply sextet_range).
      apply IH. simpl in Hlen. lia.
Qed.

Lemma b64decode_b64encode (data : bytes) : b64decode (b64encode data) = Ok data.
Proof.
  unfold b64decode. rewrite (is_ascii_encode (List.length data)) by done.
  by rewrite (loop_encode (List.length data)).
Qed.

(** X25: when [analyze_scene] gets as far as calling the collaborator, it
    sends the fixed prompt with exactly one image, and the base64 text of
    that image decodes to the very bytes that the request's payload
    decoded to: re-encoding loses nothing, whatever characters outside the
    alphabet the payload had.  Up to then only the clock has been read. *)
Theorem X25_image_forwarded_intact (request : SceneAnalysisRequest.t)
    (w w1 : World) (chat : LlmChat) (message : UserMessage)
    (Hcall : analyze_scene_call request w = (w1, Ok (chat, message))) :
  exists part data,
    payload (SceneAnalysisRequest.image_data request) = Some part /\
    b64decode part = Ok data /\
    message = {| text := scene_prompt;
                 file_contents := [{| image_base64 := b64encode data |}] |} /\
    b64decode (b64encode data) = Ok data /\
    system_message chat = scene_system_message /\
    manager w1 = manager w /\ log w1 = log w /\ websockets w1 = websockets w.
Proof.
  revert Hcall.
  unfold analyze_scene_call, http_errors, try_except, bind, require_vision_chat,
    lift, raise, utcnow, ret.
  destruct (vision_chat w); simpl; [|done].
  destruct (payload_some (SceneAnalysisRequest.image_data request)) as [part Hp].
  rewrite Hp. destruct (b64decode part) as [data|e0] eqn:Ed; simpl; [|done].
  intros [= <- <- <-]. exists part, data.
  repeat split; try done. apply b64decode_b64encode.
Qed.

Lemma X25_image_forwarded_intact_witness :
  exists w1 chat,
    analyze_scene_call
      (SceneAnalysisRequest.mk "data:image/jpeg;base64,QU-JD" "client1") world1 =
    (w1, Ok (chat, {| text := scene_prompt;
                      file_contents := [{| image_base64 := "QUJD" |}] |})).
Proof.
  eexists _, _.
  destruct (X25_image_forwarded_intact
              (SceneAnalysisRequest.mk "data:image/jpeg;base64,QU-JD" "client1")
              world1 _ _ _ eq_refl) as (part & data & _).
  reflexivity.
Defined.

(** ** Lenient decoding *)

Lemma loop_skips (c : ascii) (s2 : string) :
  table_a2b_base64 c = None -> c <> BASE64_PAD ->
  forall s1 q l p out,
    a2b_base64_loop (s1 ++ String c s2) q l p out =
    a2b_base64_loop (s1 ++ s2) q l p out.
Proof.
  intros Hc Hpad. induction s1 as [|c1 s1 IH]; intros q l p out.
  - simpl. rewrite Hc.
    destruct (Ascii.eqb c BASE64_PAD) eqn:E; [by apply Ascii.eqb_eq in E|done].
  - change (String c1 s1 ++ String c s2) with (String c1 (s1 ++ String c s2)).
    change (String c1 s1 ++ s2) with (String c1 (s1 ++ s2)).
    cbn [a2b_base64_loop]. repeat case_match; try done; apply IH.
Qed.

Lemma is_ascii_app s1 s2 : is_ascii (s1 ++ s2) = is_ascii s1 && is_ascii s2.
Proof.
  induction s1 as [|c s1 IH]; simpl; [done|]. rewrite IH. by rewrite andb_assoc.
Qed.

(** X26: the base64 check of [analyze_scene] is lenient: an ASCII
    character outside the base64 alphabet (a space, a line break, a
    hyphen, ...) anywhere in the payload is skipped, so the payload
    decodes to the same bytes, or is refused with the same error, as
    without it. *)
Theorem X26_decoding_skips_foreign_characters (before after : string) (c : ascii)
    (Hforeign : table_a2b_base64 c = None)
    (Hpad : c <> BASE64_PAD)
    (Hascii : ord c < 128) :
  b64decode (before ++ String c after) = b64decode (before ++ after).
Proof.
  unfold b64decode. rewrite !is_ascii_app. cbn [is_ascii].
  rewrite (proj2 (Z.ltb_lt _ _) Hascii). cbn [andb].
  by rewrite loop_skips.
Qed.

Lemma X26_decoding_skips_foreign_characters_witness :
  b64decode "QU JD" = b64decode "QUJD" /\ b64decode "not-an-image" = b64decode "notanimage".
Proof.
  split.
  - apply (X26_decoding_skips_foreign_characters "QU" "JD" " "%char);
      [reflexivity | discriminate | reflexivity].
  - transitivity (b64decode "notan-image").
    + apply (X26_decoding_skips_foreign_characters "not" "an-image" "-"%char);
        [reflexivity | discriminate | reflexivity].
    + apply (X26_decoding_skips_foreign_characters "notan" "image" "-"%char);
        [reflexivity | discriminate | reflexivity].
Defined.

(** ** Requests in flight *)

Lemma step_keeps_task s ev id :
  (id < submitted s)%nat ->
  (forall response, ev <> CollaboratorReturns id response) ->
  awaiting (step s ev) !! id = awaiting s !! id /\
  (id < submitted (step s ev))%nat.
Proof.
  intros Hid Hev. destruct ev as [r|r|id' response|c|ws rc|ws]; simpl.
  - destruct (analyze_scene_call r (world s)) as [w [[chat msg]|e]]; simpl;
      [rewrite lookup_insert_ne by lia|]; split; (done || lia).
  - destruct (ask_question_call r (world s)) as [w [[ctx [chat msg]]|e]]; simpl;
      [rewrite lookup_insert_ne by lia|]; split; (done || lia).
  - assert (id' <> id) by (intros ->; by apply (Hev response)).
    destruct (awaiting s !! id') as [[r chat msg|r ctx chat msg]|]; [| |done].
    + destruct (analyze_scene_resume r response (world s)) as [w res]. simpl.
      by rewrite lookup_delete_ne.
    + destruct (ask_question_resume r ctx response (world s)) as [w res]. simpl.
      by rewrite lookup_delete_ne.
  - by repeat case_match.
  - by repeat case_match.
  - by case_match.
Qed.

Lemma run_keeps_task evs : forall s id,
  (id < submitted s)%nat ->
  Forall (fun ev => forall response, ev <> CollaboratorReturns id response) evs ->
  awaiting (run s evs) !! id = awaiting s !! id.
Proof.
  induction evs as [|ev evs IH]; intros s id Hid Hevs; [done|].
  inversion Hevs as [|? ? Hev Hrest]; subst.
  destruct (step_keeps_task s ev id Hid Hev) as [Ha Hlt].
  change (run s (ev :: evs)) with (run (step s ev) evs).
  by rewrite IH.
Qed.

(** X27: a question is answered against the description that was stored
    when it was submitted.  Whatever happens while its collaborator call
    is pending (other requests, newer analyses of the same client,
    connections and disconnections), when the call returns a text the
    reply succeeds and reports that earlier description as its scene
    context. *)
Theorem X27_question_keeps_its_context (s : Server) (request : QuestionRequest.t)
    (evs : list Event) (text : string) (chat : LlmChat)
    (Hchat : vision_chat (world s) = Some chat)
    (Hcontext : get_scene_description (manager (world s))
                  (QuestionRequest.client_id request) <> "")
    (Hpending : Forall (fun ev => forall response,
                          ev <> CollaboratorReturns (submitted s) response) evs) :
  let context := get_scene_description (manager (world s))
                   (QuestionRequest.client_id request) in
  let s' := run s (PostAskQuestion request :: evs
                   ++ [CollaboratorReturns (submitted s) (Ok text)]) in
  exists t,
    last (replies s') =
      Some (submitted s,
            QuestionReply (Ok (QuestionResponse.mk (strip text) context t))) /\
    awaiting s' !! submitted s = None.
Proof.
  intros context s'.
  assert (Hs' : s' = step (run (step s (PostAskQuestion request)) evs)
                       (CollaboratorReturns (submitted s) (Ok text))).
  { subst s'. unfold run. cbn [fold_left]. by rewrite fold_left_app. }
  rewrite Hs'. clear Hs' s'.
  destruct (ask_question_call_grounded request (world s) chat Hchat Hcontext)
    as (w1 & qa & Hcall & _ & _).
  fold context in Hcall.
  assert (Hs1 : awaiting (step s (PostAskQuestion request)) !! submitted s =
                Some (QuestionTask request context qa
                        {| text := qa_prompt context (QuestionRequest.question request);
                           file_contents := [] |}) /\
                (submitted s < submitted (step s (PostAskQuestion request)))%nat).
  { simpl. rewrite Hcall. simpl. rewrite lookup_insert_eq. split; [done|lia]. }
  destruct Hs1 as [Htask Hlt].
  pose proof (run_keeps_task evs _ _ Hlt Hpending) as Hkeep.
  rewrite Htask in Hkeep.
  remember (run (step s (PostAskQuestion request)) evs) as s2 eqn:Es2.
  cbn [step]. rewrite Hkeep.
  rewrite ask_question_resume_text.
  destruct (client_sessions (manager (world s2)) !! _);
    unfold reply_to; cbn [replies awaiting];
    (eexists; split; [by rewrite last_snoc | apply lookup_delete_eq]).
Qed.

Lemma X27_question_keeps_its_context_witness :
  let s := boot world2 in
  let s' := run s [PostAskQuestion (QuestionRequest.mk "what color?" "client1");
                   PostAnalyzeScene (SceneAnalysisRequest.mk "REVG" "client1");
                   CollaboratorReturns 1 (Ok "a blue table");
                   CollaboratorReturns 0 (Ok "red")] in
  get_scene_description (manager (world s')) "client1" = "a blue table" /\
  exists t,
    last (replies s') =
      Some (0%nat, QuestionReply (Ok (QuestionResponse.mk "red" "a red chair" t))).
Proof.
  intros s s'. split; [reflexivity|].
  destruct (X27_question_keeps_its_context s
              (QuestionRequest.mk "what color?" "client1")
              [PostAnalyzeScene (SceneAnalysisRequest.mk "REVG" "client1");
               CollaboratorReturns 1 (Ok "a blue table")]
              "red" startup_vision_chat) as (t & H & _).
  - reflexivity.
  - discriminate.
  - repeat constructor; discriminate.
  - exists t. exact H.
Defined.

(** ** The history only grows *)

Lemma request_step_history s ev c session :
  request_event ev ->
  client_sessions (manager (world s)) !! c = Some session ->
  exists session' added,
    client_sessions (manager (world (step s ev))) !! c = Some session' /\
    conversation_history session' = (conversation_history session ++ added)%list.
Proof.
  intros Hev Hc. destruct ev as [r|r|id response| | |]; try done; simpl.
  - pose proof (analyze_scene_call_manager r (world s)) as (Hm & _).
    destruct (analyze_scene_call r (world s)) as [w [[chat msg]|e]];
      simpl in *; rewrite Hm; exists session, []; by rewrite app_nil_r.
  - pose proof (ask_question_call_manager r (world s)) as (Hm & _).
    destruct (ask_question_call r (world s)) as [w [[ctx [chat msg]]|e]];
      simpl in *; rewrite Hm; exists session, []; by rewrite app_nil_r.
  - destruct (awaiting s !! id) as [[r chat msg|r ctx chat msg]|] eqn:Eid.
    + pose proof (analyze_scene_resume_frame r response (world s))
        as (_ & _ & _ & Hother & Hhist).
      destruct (analyze_scene_resume r response (world s)) as [w res]. simpl in *.
      destruct (decide (c = SceneAnalysisRequest.client_id r)) as [->|Hne].
      * rewrite Hc in Hhist. simpl in Hhist.
        destruct (client_sessions (manager w) !! _) as [session'|]; [|done].
        simpl in Hhist. injection Hhist as Hhist.
        exists session', []. by rewrite app_nil_r.
      * rewrite Hother by done. exists session, []. by rewrite app_nil_r.
    + destruct response as [text|e].
      * rewrite ask_question_resume_text.
        destruct (client_sessions (manager (world s)) !! QuestionRequest.client_id r)
          as [own|] eqn:E; simpl.
        -- destruct (decide (c = QuestionRequest.client_id r)) as [->|Hne].
           ++ rewrite lookup_insert_eq. simplify_eq. eauto.
           ++ rewrite lookup_insert_ne by done.
              exists session, []. by rewrite app_nil_r.
        -- exists session, []. by rewrite app_nil_r.
      * destruct (ask_question_resume_raise r ctx e (world s)) as (w' & e' & H' & Hm).
        rewrite H'. simpl. rewrite Hm. exists session, []. by rewrite app_nil_r.
    + exists session, []. by rewrite app_nil_r.
Qed.

(** X28: request handling never removes, reorders or rewrites a history:
    for a client that has a session, after any sequence of submissions
    and completions of analyses and questions (of any clients, in any
    order, succeeding or failing) the session is still there and its
    history is the earlier history followed by the entries appended
    since. *)
Theorem X28_history_append_only (evs : list Event) :
  forall (s : Server) (client_id : string) (session : ClientSession),
    Forall request_event evs ->
    client_sessions (manager (world s)) !! client_id = Some session ->
    exists session' added,
      client_sessions (manager (world (run s evs))) !! client_id = Some session' /\
      conversation_history session' = (conversation_history session ++ added)%list.
Proof.
  induction evs as [|ev evs IH]; intros s c session Hevs Hc.
  - exists session, []. by rewrite app_nil_r.
  - inversion Hevs as [|? ? Hev Hrest]; subst.
    destruct (request_step_history s ev c session Hev Hc) as (s1 & a1 & Hc1 & Hh1).
    change (run s (ev :: evs)) with (run (step s ev) evs).
    destruct (IH (step s ev) c s1 Hrest Hc1) as (s2 & a2 & Hc2 & Hh2).
    exists s2, (a1 ++ a2)%list. split; [done|].
    by rewrite Hh2, Hh1, app_assoc.
Qed.

Lemma X28_history_append_only_witness :
  let first := HistoryEntry.mk "what color?" "red" "a red chair" 3 in
  let s := boot world3 in
  let s' := run s [PostAskQuestion (QuestionRequest.mk "what shape?" "client1");
                   PostAnalyzeScene (SceneAnalysisRequest.mk "REVG" "client1");
                   CollaboratorReturns 1 (Ok "a blue table");
                   CollaboratorReturns 0 (Ok "square")] in
  (exists session' added,
     client_sessions (manager (world s')) !! "client1" = Some session' /\
     conversation_history session' = ([first] ++ added)%list) /\
  conversation_history <$> client_sessions (manager (world s')) !! "client1" =
    Some [first; HistoryEntry.mk "what shape?" "square" "a red chair" 8].
Proof.
  intros first s s'. split; [|reflexivity].
  apply (X28_history_append_only _ s "client1"
           {| last_scene_description := "a red chair";
              conversation_history := [first] |}).
  - repeat constructor.
  - reflexivity.
Defined.

(** ** Which payloads are refused *)

Lemma loop_without_pad (s : string) :
  contains BASE64_PAD s = false ->
  forall q l p out,
    0 <= q < 4 ->
    (exists data, a2b_base64_loop s q l p out = Ok data) <->
    (q + data_characters s) mod 4 = 0.
Proof.
  induction s as [|c s IH]; intros Hpad q l p out Hq.
  - simpl. rewrite Z.add_0_r, Z.mod_small by lia.
    destruct (q =? 0) eqn:E0; [apply Z.eqb_eq in E0; split; eauto|].
    apply Z.eqb_neq in E0. split; [|done].
    intros [data H]. by destruct (q =? 1).
  - simpl in Hpad. destruct (Ascii.eqb c BASE64_PAD) eqn:Ec; [done|].
    cbn [a2b_base64_loop data_characters]. rewrite Ec.
    destruct (table_a2b_base64 c) as [ch|].
    + assert (Hmod : forall q', 0 <= q' < 4 -> q' = (q + 1) mod 4 ->
                (q' + data_characters s) mod 4 = 0 <->
                (q + (1 + data_characters s)) mod 4 = 0).
      { intros q' Hq' ->. rewrite Z.add_assoc.
        by rewrite Z.add_mod_idemp_l by lia. }
      destruct (q =? 0) eqn:E0; [|destruct (q =? 1) eqn:E1; [|destruct (q =? 2) eqn:E2]].
      * apply Z.eqb_eq in E0 as ->. rewrite IH by (done || lia).
        by apply Hmod.
      * apply Z.eqb_eq in E1 as ->. rewrite IH by (done || lia).
        by apply Hmod.
      * apply Z.eqb_eq in E2 as ->. rewrite IH by (done || lia).
        by apply Hmod.
      * apply Z.eqb_neq in E0, E1, E2. assert (q = 3) as -> by lia.
        rewrite IH by (done || lia). by apply Hmod.
    + rewrite Z.add_0_l. by apply IH.
Qed.

(** C5 (amended): the one check [analyze_scene] makes on its input is that
    [b64decode], in its lenient default mode, accepts the payload, the
    text between the first comma and the next (the whole text without a
    comma).  With the vision backend initialised, a payload that
    [b64decode] refuses makes the handler fail with the 400 error before
    any collaborator call, leaving the whole state as it was; every other
    payload is decoded and sent to the collaborator, image or not.  For a
    payload without ["="], being refused means exactly: a character that
    is not ASCII, or a number of base64-alphabet characters (all others
    are skipped) that is not a multiple of four. *)
Theorem C5_refused_payloads (w : World) (request : SceneAnalysisRequest.t)
    (chat : LlmChat)
    (Hchat : vision_chat w = Some chat) :
  exists part,
    payload (SceneAnalysisRequest.image_data request) = Some part /\
    match b64decode part with
    | Raise e =>
        let err := HTTPException 400 ("Invalid image data: " ++ exn_str e) in
        analyze_scene_call request w = (w, Raise err) /\
        (forall llm, analyze_scene llm request w = (w, Raise err)) /\
        (forall s, world s = w ->
           step s (PostAnalyzeScene request) =
             reply_now s w (SceneReply (Raise err)))
    | Ok data =>
        exists w1 scene_chat,
          analyze_scene_call request w =
            (w1, Ok (scene_chat,
                     {| text := scene_prompt;
                        file_contents := [{| image_base64 := b64encode data |}] |}))
    end /\
    (contains BASE64_PAD part = false ->
     (exists e, b64decode part = Raise e) <->
     is_ascii part = false \/ data_characters part mod 4 <> 0).
Proof.
  destruct (payload_some (SceneAnalysisRequest.image_data request)) as [part Hp].
  exists part. split; [done|]. split.
  - destruct (b64decode part) as [data|e] eqn:Ed.
    + unfold analyze_scene_call, http_errors, try_except, bind, require_vision_chat,
        lift, utcnow, ret.
      rewrite Hchat, Hp, Ed. simpl. eauto.
    + by apply (analyze_scene_rejects_undecodable w request chat part e).
  - intros Hpad. unfold b64decode.
    destruct (is_ascii part); [|split; eauto].
    pose proof (loop_without_pad part Hpad 0 0 0 [] ltac:(lia)) as H.
    rewrite Z.add_0_l in H. split.
    + intros [e He]. right. intros Hz. apply H in Hz as [data Hd]. congruence.
    + intros [|Hn]; [done|].
      destruct (a2b_base64_loop part 0 0 0 []) as [data|e]; [|eauto].
      exfalso. apply Hn, H. eauto.
Qed.

Lemma C5_refused_payloads_witness :
  analyze_scene_call (SceneAnalysisRequest.mk "not-an-image" "clientX") world2 =
    (world2, Raise (HTTPException 400 "Invalid image data: Incorrect padding")) /\
  data_characters "not-an-image" = 10 /\
  exists w1 scene_chat,
    analyze_scene_call (SceneAnalysisRequest.mk "x,QU-JD,Q" "clientX") world2 =
      (w1, Ok (scene_chat,
               {| text := scene_prompt;
                  file_contents := [{| image_base64 := "QUJD" |}] |})).
Proof.
  assert (E1 : b64decode "not-an-image" = Raise (Exception "Incorrect padding"))
    by (vm_compute; reflexivity).
  assert (E2 : b64decode "QU-JD" = Ok (list_byte_of_string "ABC"))
    by (vm_compute; reflexivity).
  split; [|split; [reflexivity|]].
  - destruct (C5_refused_payloads world2
                (SceneAnalysisRequest.mk "not-an-image" "clientX")
                startup_vision_chat eq_refl) as (part & Hp & H & _).
    injection Hp as <-. rewrite E1 in H. apply H.
  - destruct (C5_refused_payloads world2
                (SceneAnalysisRequest.mk "x,QU-JD,Q" "clientX")
                startup_vision_chat eq_refl) as (part & Hp & H & _).
    injection Hp as <-. rewrite E2 in H. exact H.
Defined.

(** ** A question and the history *)





(** ** Failures and cancellation *)

(** X8: [analyze_scene] ends without a result in four ways only, none of
    which changes the registry or the sessions: with a 503 when the vision
    backend is not initialised; with a 400 when [b64decode] refuses the
    payload; when the collaborator call raises, with that exception itself
    if it is an [HTTPException] and else with a logged 500 whose detail
    quotes it; and, when it is cancelled while it awaits the collaborator,
    with the [CancelledError], which no clause catches and which is
    neither logged nor turned into an [HTTPException]. *)
Theorem X8_analyze_scene_outcomes (llm : LlmChat -> UserMessage -> outcome string)
    (request : SceneAnalysisRequest.t) (w : World) :
  let out := analyze_scene_task llm request w in
  match snd out with
  | Done (Ok _) => True
  | Done (Raise e) =>
      manager (fst out) = manager w /\
      ((vision_chat w = None /\ e = backend_unavailable /\ log (fst out) = log w) \/
       (exists part e0,
          payload (SceneAnalysisRequest.image_data request) = Some part /\
          b64decode part = Raise e0 /\
          e = HTTPException 400 ("Invalid image data: " ++ exn_str e0) /\
          log (fst out) = log w) \/
       (exists chat message e0,
          llm chat message = Done (Raise e0) /\
          match e0 with
          | HTTPException _ _ => e = e0 /\ log (fst out) = log w
          | _ =>
              e = HTTPException 500 ("Scene analysis failed: " ++ exn_str e0) /\
              log (fst out) =
                (log w ++ [ERROR ("Scene analysis error: " ++ exn_str e0)])%list
          end))
  | CancelledError =>
      manager (fst out) = manager w /\ log (fst out) = log w /\
      exists chat message, llm chat message = CancelledError
  end.
Proof.
  unfold analyze_scene_task.
  pose proof (analyze_scene_call_manager request w) as (Hm & _).
  pose proof (analyze_scene_call_log request w) as Hl.
  destruct (analyze_scene_call request w) as [w1 [[chat message]|e1]] eqn:Ecall;
    cbn [fst snd] in *.
  - unfold analyze_scene_awaited.
    destruct (llm chat message) as [[text|e0]|] eqn:Ellm.
    + by rewrite analyze_scene_resume_text.
    + rewrite analyze_scene_resume_raises, http_errors_raise.
      destruct e0; cbn [fst snd logging log manager]; (split; [done|]);
        right; right; eexists chat, message, _; (split; [exact Ellm|]);
        by rewrite ?Hl.
    + cbn [fst snd]. eauto.
  - apply analyze_scene_call_raises in Ecall
      as [-> [(Hv & ->)|(part & e0 & Hp & Hd & ->)]].
    + split; [done|]. by left.
    + split; [done|]. right. left. eauto 10.
Qed.

(** X9: [ask_question] ends without a result in four ways only, none of
    which appends to a history or changes registry or sessions: with a 503
    when the vision backend is not initialised; with a 400 when the client
    has no description; when the collaborator call raises, with that
    exception itself if it is an [HTTPException] and else with a logged
    500; and, when it is cancelled while it awaits the collaborator, with
    the [CancelledError], uncaught and unlogged. *)
Theorem X9_ask_question_outcomes (llm : LlmChat -> UserMessage -> outcome string)
    (request : QuestionRequest.t) (w : World) :
  let out := ask_question_task llm request w in
  match snd out with
  | Done (Ok _) => True
  | Done (Raise e) =>
      manager (fst out) = manager w /\
      ((vision_chat w = None /\ e = backend_unavailable /\ log (fst out) = log w) \/
       (get_scene_description (manager w) (QuestionRequest.client_id request) = "" /\
        e = no_context /\ log (fst out) = log w) \/
       (exists chat message e0,
          llm chat message = Done (Raise e0) /\
          match e0 with
          | HTTPException _ _ => e = e0 /\ log (fst out) = log w
          | _ =>
              e = HTTPException 500 ("Question answering failed: " ++ exn_str e0) /\
              log (fst out) =
                (log w ++ [ERROR ("Question answering error: " ++ exn_str e0)])%list
          end))
  | CancelledError =>
      manager (fst out) = manager w /\ log (fst out) = log w /\
      exists chat message, llm chat message = CancelledError
  end.
Proof.
  unfold ask_question_task.
  pose proof (ask_question_call_manager request w) as (Hm & _).
  pose proof (ask_question_call_log request w) as Hl.
  destruct (ask_question_call request w) as [w1 [[ctx [chat message]]|e1]] eqn:Ecall;
    cbn [fst snd] in *.
  - unfold ask_question_awaited.
    destruct (llm chat message) as [[text|e0]|] eqn:Ellm.
    + rewrite ask_question_resume_text.
      by destruct (client_sessions (manager w1) !! QuestionRequest.client_id request).
    + rewrite ask_question_resume_raises, http_errors_raise.
      destruct e0; cbn [fst snd logging log manager]; (split; [done|]);
        right; right; eexists chat, message, _; (split; [exact Ellm|]);
        by rewrite ?Hl.
    + cbn [fst snd]. eauto.
  - apply ask_question_call_raises in Ecall as [-> [(Hv & ->)|(Hd & ->)]].
    + split; [done|]. by left.
    + split; [done|]. right. by left.
Qed.

